(** * ElementsFactory: the orchestration layer of [src/app.js]

    A shallow embedding of the class [PeriodicTableApp]: its four fields,
    the page it touches (the table container, the two selectors, the export
    button, the registered listeners) and the calls it makes to its two
    collaborators [parser] and [renderer] and to the console, recorded in
    order of occurrence.  Synchronous methods are computations in a state and
    exception monad over that world; the asynchronous [init] is split at its
    two [await]s.  The helpers [getElementInfo] and [getElementsByCategory]
    only forward to the parser and are left out. *)

From Stdlib Require Import String Ascii List ZArith Bool Lia DecimalString.
Import ListNotations.
Open Scope string_scope.

(** ** JavaScript values *)

(** The data values the collaborators can hand to the application: what
    [parser.loadConfig] and [parser.loadElements] resolve to or reject with.
    Numbers are the integer-valued ones; [JError] is an instance of [Error]
    (or of a subclass such as [TypeError]) with its [name] and [message]. *)
#[local] Set Warnings "-register-all".
Inductive JsValue : Type :=
| JNull
| JUndefined
| JBool (b : bool)
| JNum (n : Z)
| JStr (s : string)
| JArr (items : list JsValue)
| JObj (fields : list (string * JsValue))
| JError (name message : string).

(** ToBoolean, as used by [!x], [x || y] and [if (x)]. *)
Definition truthy (v : JsValue) : bool :=
  match v with
  | JNull | JUndefined => false
  | JBool b => b
  | JNum n => negb (n =? 0)%Z
  | JStr s => negb (s =? "")
  | JArr _ | JObj _ | JError _ _ => true
  end.

(** [x || y] *)
Definition js_or (x y : JsValue) : JsValue := if truthy x then x else y.

(** ToString, as performed by a template literal on a substitution, for the
    values on which the conversion returns and is exact: see [printable]
    below.  Outside of them (an integer beyond the safe range, an object with
    an own [toString] property, which is not callable and makes the
    conversion throw) the text is a placeholder, and the properties of the
    texts the application builds are stated for [printable] values only. *)
Fixpoint to_string (v : JsValue) : string :=
  match v with
  | JNull => "null"
  | JUndefined => "undefined"
  | JBool true => "true"
  | JBool false => "false"
  | JNum n => NilZero.string_of_int (Z.to_int n)
  | JStr s => s
  | JArr items =>
      (fix join (l : list JsValue) : string :=
         match l with
         | [] => ""
         | x :: rest =>
             let sx := match x with
                       | JNull | JUndefined => ""
                       | _ => to_string x
                       end in
             match rest with
             | [] => sx
             | _ :: _ => sx ++ "," ++ join rest
             end
         end) items
  | JObj _ => "[object Object]"
  | JError name message =>
      if (name =? "") then message
      else if (message =? "") then name
      else name ++ ": " ++ message
  end.

(** [fields] has an own property [p]. *)
Definition has_field (p : string) (fields : list (string * JsValue)) : bool :=
  existsb (fun kv => fst kv =? p) fields.

(** The values whose ToString returns, with [to_string] as its result: the
    primitives, integers within [Number.MAX_SAFE_INTEGER], instances of
    [Error], objects that inherit [Object.prototype.toString], and arrays of
    such values. *)
Fixpoint printable (v : JsValue) : bool :=
  match v with
  | JNull | JUndefined | JBool _ | JStr _ | JError _ _ => true
  | JNum n => (Z.abs n <=? 9007199254740991)%Z
  | JArr items =>
      (fix all (l : list JsValue) : bool :=
         match l with
         | [] => true
         | x :: rest => printable x && all rest
         end) items
  | JObj fields => negb (has_field "toString" fields)
  end.

(** The length of a string in UTF-16 code units, the string being held as
    its UTF-8 bytes: a lead byte of a four-byte sequence stands for a
    surrogate pair, a continuation byte for nothing. *)
Fixpoint utf16_length (s : string) : nat :=
  match s with
  | EmptyString => 0
  | String c rest =>
      let b := nat_of_ascii c in
      (if b <? 128 then 1
       else if b <? 192 then 0
       else if b <? 240 then 1
       else 2)%nat + utf16_length rest
  end.

Fixpoint lookup_field (p : string) (fields : list (string * JsValue)) : JsValue :=
  match fields with
  | [] => JUndefined
  | (k, v) :: rest => if (k =? p) then v else lookup_field p rest
  end.

(** A completion: a JavaScript evaluation either returns or throws a value. *)
Inductive Completion (A : Type) : Type :=
| Normal (a : A)
| Throw (e : JsValue).
Arguments Normal {A} a.
Arguments Throw {A} e.

(** The [TypeError] of a property read on [null] or [undefined] (the message
    is V8's). *)
Definition read_of_nullish (v : JsValue) (p : string) : JsValue :=
  JError "TypeError"
    ("Cannot read properties of " ++ to_string v ++ " (reading '" ++ p ++ "')").

(** [v.p] for the two properties the application reads, [length] and
    [message]. *)
Definition get_prop (v : JsValue) (p : string) : Completion JsValue :=
  match v with
  | JNull | JUndefined => Throw (read_of_nullish v p)
  | JBool _ | JNum _ => Normal JUndefined
  | JStr s =>
      if (p =? "length") then Normal (JNum (Z.of_nat (utf16_length s)))
      else Normal JUndefined
  | JArr items =>
      if (p =? "length") then Normal (JNum (Z.of_nat (List.length items)))
      else Normal JUndefined
  | JObj fields => Normal (lookup_field p fields)
  | JError _ message =>
      if (p =? "message") then Normal (JStr message) else Normal JUndefined
  end.

(** ** The world *)

(** The fields of a [PeriodicTableApp] instance.  The theme and the layout
    are strings: the constructor's literals, then the [value] of a [select]
    element. *)
Record App : Type := mkApp {
  elements : JsValue;
  config : JsValue;
  currentTheme : string;
  currentLayout : string
}.

(** The part of the document the application looks up by id:
    [#table-container] with its [innerHTML] ([None] when the element does not
    exist) and the presence of the three controls. *)
Record Dom : Type := mkDom {
  table_container : option string;
  theme_select : bool;
  size_select : bool;
  export_btn : bool
}.

(** The callbacks handed to [addEventListener]. *)
Inductive Listener : Type :=
| ThemeChangeListener      (* 'change' on #theme-select *)
| SizeChangeListener       (* 'change' on #size-select *)
| ExportClickListener      (* 'click' on #export-svg *)
| DocumentClickListener.   (* 'click' on document *)

(** Calls that leave the application, in program order. *)
Inductive Effect : Type :=
| ConsoleLog (msg : string)
| ConsoleError (msg : string) (err : option JsValue)
| ParserLoadConfig
| ParserLoadElements
| RendererGenerate (els cfg : JsValue) (theme layout : string)
| RendererDownloadSVG (filename : string).

Record World : Type := mkWorld {
  app : App;
  dom : Dom;
  listeners : list Listener;
  trace : list Effect
}.

(** ** The monad of synchronous code *)

Definition M (A : Type) : Type := World -> Completion A * World.

Definition ret {A} (a : A) : M A := fun w => (Normal a, w).

Definition bind {A B} (m : M A) (k : A -> M B) : M B :=
  fun w =>
    match m w with
    | (Normal a, w') => k a w'
    | (Throw e, w') => (Throw e, w')
    end.

Definition try_catch {A} (body : M A) (handler : JsValue -> M A) : M A :=
  fun w =>
    match body w with
    | (Normal a, w') => (Normal a, w')
    | (Throw e, w') => handler e w'
    end.

Definition lift_completion {A} (c : Completion A) : M A := fun w => (c, w).

Notation "x <- c1 ;; c2" := (bind c1 (fun x => c2))
  (at level 61, c1 at next level, right associativity).
Notation "c1 ;; c2" := (bind c1 (fun _ => c2))
  (at level 61, right associativity).

Definition when (b : bool) (m : M unit) : M unit := if b then m else ret tt.

(** Primitive accesses to the world. *)
Definition get_app : M App := fun w => (Normal (app w), w).

Definition set_elements (v : JsValue) : M unit :=
  fun w =>
    let a := app w in
    (Normal tt,
     mkWorld (mkApp v (config a) (currentTheme a) (currentLayout a))
             (dom w) (listeners w) (trace w)).

Definition set_config (v : JsValue) : M unit :=
  fun w =>
    let a := app w in
    (Normal tt,
     mkWorld (mkApp (elements a) v (currentTheme a) (currentLayout a))
             (dom w) (listeners w) (trace w)).

Definition set_currentTheme (s : string) : M unit :=
  fun w =>
    let a := app w in
    (Normal tt,
     mkWorld (mkApp (elements a) (config a) s (currentLayout a))
             (dom w) (listeners w) (trace w)).

Definition set_currentLayout (s : string) : M unit :=
  fun w =>
    let a := app w in
    (Normal tt,
     mkWorld (mkApp (elements a) (config a) (currentTheme a) s)
             (dom w) (listeners w) (trace w)).

Definition get_dom : M Dom := fun w => (Normal (dom w), w).

(** [container.innerHTML = html] on an existing container.  The document
    keeps the assigned markup as a string: the elements the browser builds
    from it are not part of [Dom], whose three flags are the controls as the
    application found or will find them. *)
Definition set_innerHTML (html : string) : M unit :=
  fun w =>
    let d := dom w in
    (Normal tt,
     mkWorld (app w)
             (mkDom (match table_container d with
                     | Some _ => Some html
                     | None => None
                     end)
                    (theme_select d) (size_select d) (export_btn d))
             (listeners w) (trace w)).

Definition addEventListener (l : Listener) : M unit :=
  fun w => (Normal tt, mkWorld (app w) (dom w) (listeners w ++ [l]) (trace w)).

Definition emit (e : Effect) : M unit :=
  fun w => (Normal tt, mkWorld (app w) (dom w) (listeners w) (trace w ++ [e])).

Definition console_log (msg : string) : M unit := emit (ConsoleLog msg).
Definition console_error (msg : string) (err : option JsValue) : M unit :=
  emit (ConsoleError msg err).

(** ** Text *)

Definition dquote : string := String (ascii_of_nat 34) "".
Definition newline : string := String (ascii_of_nat 10) "".

(** The template literal of [showError]. *)
Definition error_html (message : string) : string :=
  newline ++
  "      <div class=" ++ dquote ++ "error-message" ++ dquote ++ ">" ++ newline ++
  "        <strong>Error:</strong> " ++ message ++ newline ++
  "      </div>" ++ newline ++
  "    ".

Definition render_log (theme layout : string) : string :=
  "ElementsFactory: rendering theme=" ++ dquote ++ theme ++ dquote ++
  ", layout=" ++ dquote ++ layout ++ dquote.

(** The template literal of [exportSVG]. *)
Definition export_filename (theme layout : string) : string :=
  "elementsfactory-" ++ theme ++ "-" ++ layout ++ ".svg".

(** ** Events of the page *)

(** The four [data-] attributes read from a clicked element group;
    [getAttribute] gives [null] for a missing one. *)
Record ElementGroup : Type := mkElementGroup {
  data_number : option string;
  data_symbol : option string;
  data_name : option string;
  data_category : option string
}.

Definition attribute (a : option string) : string :=
  match a with
  | Some s => s
  | None => "null"
  end.

Inductive UiEvent : Type :=
| ThemeSelected (value : string)      (* 'change' on #theme-select *)
| SizeSelected (value : string)       (* 'change' on #size-select *)
| ExportClicked                       (* 'click' on #export-svg *)
| DocumentClicked (elementGroup : option ElementGroup).
                                      (* 'click' elsewhere in the document *)

Definition on_document (l : Listener) : bool :=
  match l with
  | DocumentClickListener => true
  | _ => false
  end.

Definition get_listeners : M (list Listener) :=
  fun w => (Normal (listeners w), w).

(** ** Asynchronous calls *)

(** Where an [init()] call is suspended. *)
Inductive InitPc : Type :=
| AwaitingConfig       (* in loadData, at await parser.loadConfig() *)
| AwaitingElements.    (* in loadData, at await parser.loadElements() *)

(** How an awaited promise settles. *)
Inductive Settled : Type :=
| Resolved (v : JsValue)
| Rejected (e : JsValue).

(** The promise returned by [init()]. *)
Inductive InitPromise : Type :=
| Pending (pc : InitPc)
| Fulfilled
| RejectedWith (e : JsValue).

Record Sys : Type := mkSys {
  world : World;
  calls : list InitPromise
}.

(** ** The class *)

(** [constructor()] *)
Definition constructor : App := mkApp JNull JNull "light" "normal".

(** [showError(message)] *)
Definition showError (message : JsValue) : M unit :=
  d <- get_dom ;;
  match table_container d with
  | None => ret tt
  | Some _ => set_innerHTML (error_html (to_string message))
  end.

(** [exportSVG()]; [renderer.downloadSVG] returns nothing. *)
Definition exportSVG : M unit :=
  a <- get_app ;;
  let filename := export_filename (currentTheme a) (currentLayout a) in
  emit (RendererDownloadSVG filename) ;;
  console_log ("ElementsFactory: exported " ++ filename).

Section WithRenderer.

(** [renderer.generate], by its contract a synchronous, pure and
    deterministic function to the serialized document. *)
Variable generate : JsValue -> JsValue -> string -> string -> string.

Definition renderer_generate (els cfg : JsValue) (theme layout : string)
  : M string :=
  emit (RendererGenerate els cfg theme layout) ;;
  ret (generate els cfg theme layout).

(** [render()] *)
Definition render : M unit :=
  a <- get_app ;;
  if negb (truthy (elements a)) || negb (truthy (config a)) then
    showError (JStr "No data loaded")
  else
    console_log (render_log (currentTheme a) (currentLayout a)) ;;
    svg <- renderer_generate (elements a) (config a)
                             (currentTheme a) (currentLayout a) ;;
    d <- get_dom ;;
    match table_container d with
    | None => console_error "ElementsFactory: #table-container not found" None
    | Some _ => set_innerHTML svg
    end.

(** [setupElementInteractivity()] *)
Definition setupElementInteractivity : M unit :=
  addEventListener DocumentClickListener.

(** [setupEventListeners()] *)
Definition setupEventListeners : M unit :=
  d <- get_dom ;;
  when (theme_select d) (addEventListener ThemeChangeListener) ;;
  when (size_select d) (addEventListener SizeChangeListener) ;;
  when (export_btn d) (addEventListener ExportClickListener) ;;
  setupElementInteractivity.

(** The callback of the theme selector, applied to [e.target.value]. *)
Definition onThemeChange (value : string) : M unit :=
  set_currentTheme value ;;
  render.

(** The callback of the size selector. *)
Definition onSizeChange (value : string) : M unit :=
  set_currentLayout value ;;
  render.

(** The callback of the document, applied to [e.target.closest('.element')]. *)
Definition onDocumentClick (elementGroup : option ElementGroup) : M unit :=
  match elementGroup with
  | None => ret tt
  | Some g =>
      console_log
        ("ElementsFactory: clicked element #" ++ attribute (data_number g) ++
         " " ++ attribute (data_symbol g) ++
         " (" ++ attribute (data_name g) ++
         "), category: " ++ attribute (data_category g))
  end.

(** What a listener does on an event that reaches it. *)
Definition run_listener (l : Listener) (ev : UiEvent) : M unit :=
  match l, ev with
  | ThemeChangeListener, ThemeSelected value => onThemeChange value
  | SizeChangeListener, SizeSelected value => onSizeChange value
  | ExportClickListener, ExportClicked => exportSVG
  | DocumentClickListener, ExportClicked => onDocumentClick None
  | DocumentClickListener, DocumentClicked g => onDocumentClick g
  | _, _ => ret tt
  end.

(** Listeners run in registration order; an exception of one is reported by
    the browser and does not stop the next. *)
Fixpoint run_listeners (ls : list Listener) (ev : UiEvent) : M unit :=
  match ls with
  | [] => ret tt
  | l :: rest =>
      try_catch (run_listener l ev) (fun _ => ret tt) ;;
      run_listeners rest ev
  end.

(** Dispatch: the listeners of the target, then those of the document the
    event bubbles to. *)
Definition dispatch (ev : UiEvent) : M unit :=
  ls <- get_listeners ;;
  run_listeners (filter (fun l => negb (on_document l)) ls) ev ;;
  run_listeners (filter on_document ls) ev.

(** *** [init()], split at its suspension points *)

(** The [catch] block of [init]. *)
Definition init_catch (error : JsValue) : M unit :=
  console_error "ElementsFactory initialization error:" (Some error) ;;
  m <- lift_completion (get_prop error "message") ;;
  showError (js_or m (JStr "Initialization failed")).

(** [init] and [loadData] up to [await parser.loadConfig()]. *)
Definition init_enter : M unit :=
  console_log "ElementsFactory: initializing..." ;;
  console_log "ElementsFactory: loading config and elements..." ;;
  emit ParserLoadConfig.

(** [loadData] from the first [await] to [await parser.loadElements()]. *)
Definition loadData_config (v : JsValue) : M unit :=
  set_config v ;;
  emit ParserLoadElements.

(** [loadData] from the second [await] to its end. *)
Definition loadData_elements (v : JsValue) : M unit :=
  set_elements v ;;
  a <- get_app ;;
  n <- lift_completion (get_prop (elements a) "length") ;;
  console_log ("ElementsFactory: loaded " ++ to_string n ++ " elements.").

(** The [try] block of [init] after [await this.loadData()]. *)
Definition init_ready : M unit :=
  setupEventListeners ;;
  render ;;
  console_log "ElementsFactory: ready.".

(** The promise of an [async] body that ran to its end. *)
Definition settle_init (r : Completion unit * World) : InitPromise * World :=
  match r with
  | (Normal _, w) => (Fulfilled, w)
  | (Throw e, w) => (RejectedWith e, w)
  end.

(** The call [init()]: runs to the first [await] and returns a pending
    promise. *)
Definition init_call (w : World) : InitPromise * World :=
  match init_enter w with
  | (Normal _, w') => (Pending AwaitingConfig, w')
  | (Throw e, w') => settle_init (init_catch e w')
  end.

(** Resumption of a suspended [init] when the awaited promise settles.  A
    parser call that throws at once counts as a rejection: inside the [async]
    [loadData] it rejects the awaited promise just the same.  The hop from
    the end of [loadData] back into [init] is taken in the same step, no
    event of the page being served in between. *)
Definition init_resume (pc : InitPc) (s : Settled) (w : World)
  : InitPromise * World :=
  match s with
  | Rejected e => settle_init (init_catch e w)
  | Resolved v =>
      match pc with
      | AwaitingConfig =>
          match loadData_config v w with
          | (Normal _, w') => (Pending AwaitingElements, w')
          | (Throw e, w') => settle_init (init_catch e w')
          end
      | AwaitingElements =>
          settle_init
            (try_catch (loadData_elements v ;; init_ready) init_catch w)
      end
  end.

(** One [init()] alone, with the outcome of [parser.loadConfig()] and, when
    it is reached, of [parser.loadElements()]. *)
Definition init_run (cfg els : Settled) (w : World) : InitPromise * World :=
  match init_call w with
  | (Pending pc, w1) =>
      match init_resume pc cfg w1 with
      | (Pending pc', w2) => init_resume pc' els w2
      | done => done
      end
  | done => done
  end.

(** *** The page: the application and its pending [init()] calls *)

Definition sys_init (s : Sys) : Sys :=
  let (p, w) := init_call (world s) in
  mkSys w (calls s ++ [p]).

Fixpoint replace_nth {A} (i : nat) (x : A) (l : list A) : list A :=
  match l, i with
  | [], _ => []
  | _ :: rest, O => x :: rest
  | y :: rest, S j => y :: replace_nth j x rest
  end.

(** The promise awaited by the [i]-th [init()] call settles. *)
Definition sys_settle (i : nat) (o : Settled) (s : Sys) : Sys :=
  match nth_error (calls s) i with
  | Some (Pending pc) =>
      let (p, w) := init_resume pc o (world s) in
      mkSys w (replace_nth i p (calls s))
  | _ => s
  end.

Definition sys_dispatch (ev : UiEvent) (s : Sys) : Sys :=
  mkSys (snd (dispatch ev (world s))) (calls s).

(** The module's top level: a new instance and one [init()], at once or on
    [DOMContentLoaded]. *)
Definition boot (d : Dom) : Sys :=
  sys_init (mkSys (mkWorld constructor d [] []) []).

End WithRenderer.

(** ** Observations on a trace *)

(** The calls of [renderer.generate], with their four arguments. *)
Fixpoint generate_calls (t : list Effect)
  : list (JsValue * JsValue * string * string) :=
  match t with
  | [] => []
  | RendererGenerate els cfg theme layout :: rest =>
      (els, cfg, theme, layout) :: generate_calls rest
  | _ :: rest => generate_calls rest
  end.

(** The calls of [renderer.downloadSVG], with their filename. *)
Fixpoint download_calls (t : list Effect) : list string :=
  match t with
  | [] => []
  | RendererDownloadSVG filename :: rest => filename :: download_calls rest
  | _ :: rest => download_calls rest
  end.

(** The number of [parser.loadConfig] calls. *)
Fixpoint load_config_calls (t : list Effect) : nat :=
  match t with
  | [] => 0
  | ParserLoadConfig :: rest => S (load_config_calls rest)
  | _ :: rest => load_config_calls rest
  end.

(** The number of [parser.loadElements] calls. *)
Fixpoint load_elements_calls (t : list Effect) : nat :=
  match t with
  | [] => 0
  | ParserLoadElements :: rest => S (load_elements_calls rest)
  | _ :: rest => load_elements_calls rest
  end.

(** What the container shows once [html] is assigned to it, if it exists. *)
Definition shown (html : string) (d : Dom) : option string :=
  match table_container d with
  | Some _ => Some html
  | None => None
  end.

(** The listeners one [setupEventListeners()] registers on a document. *)
Definition installed (d : Dom) : list Listener :=
  (if theme_select d then [ThemeChangeListener] else []) ++
  (if size_select d then [SizeChangeListener] else []) ++
  (if export_btn d then [ExportClickListener] else []) ++
  [DocumentClickListener].

(** The trace of an [init()] up to its second [await]. *)
Definition load_prefix : list Effect :=
  [ConsoleLog "ElementsFactory: initializing...";
   ConsoleLog "ElementsFactory: loading config and elements...";
   ParserLoadConfig; ParserLoadElements].

(** ** Sample data *)

(** A renderer that writes its theme and layout into the markup. *)
Definition stub_generate (els cfg : JsValue) (theme layout : string) : string :=
  "<svg class='" ++ theme ++ " " ++ layout ++ "'>" ++
  to_string (match get_prop els "length" with
             | Normal n => n
             | Throw _ => JUndefined
             end) ++ "</svg>".

(** A document with the container and the three controls. *)
Definition page : Dom := mkDom (Some "") true true true.

Definition element (number : Z) (symbol name category : string) : JsValue :=
  JObj [("number", JNum number); ("symbol", JStr symbol);
        ("name", JStr name); ("category", JStr category)].

Definition sample_elements : JsValue :=
  JArr [element 1 "H" "Hydrogen" "nonmetal";
        element 2 "He" "Helium" "noble-gas"].

Definition sample_config : JsValue := JObj [("cellSize", JNum 60)].

(** The application as constructed, before any [init()]. *)
Definition fresh_world : World := mkWorld constructor page [] [].

(** The page after the top-level [init()] has loaded the sample data. *)
Definition ready_sys : Sys :=
  sys_settle stub_generate 0 (Resolved sample_elements)
    (sys_settle stub_generate 0 (Resolved sample_config)
       (boot page)).

Definition ready_world : World := world ready_sys.

(** [!this.elements || !this.config] is false. *)
Definition has_data (a : App) : bool :=
  truthy (elements a) && truthy (config a).

(** The document with [html] assigned to the container, if it exists. *)
Definition dom_showing (html : string) (d : Dom) : Dom :=
  mkDom (shown html d) (theme_select d) (size_select d) (export_btn d).

(** ** Listeners and loads *)

Definition listener_eqb (a b : Listener) : bool :=
  match a, b with
  | ThemeChangeListener, ThemeChangeListener
  | SizeChangeListener, SizeChangeListener
  | ExportClickListener, ExportClickListener
  | DocumentClickListener, DocumentClickListener => true
  | _, _ => false
  end.

(** How many times the callback [l] is registered. *)
Definition count_listener (l : Listener) (ls : list Listener) : nat :=
  List.length (filter (listener_eqb l) ls).

(** The [try] block of [init] throws: a parser promise rejects, or the
    [length] of the resolved elements cannot be read. *)
Definition load_fails (cfg els : Settled) : bool :=
  match cfg, els with
  | Rejected _, _ => true
  | Resolved _, Rejected _ => true
  | Resolved _, Resolved v =>
      match get_prop v "length" with
      | Throw _ => true
      | Normal _ => false
      end
  end.

Definition nullish (v : JsValue) : bool :=
  match v with
  | JNull | JUndefined => true
  | _ => false
  end.

(** The texts that [init] builds on this run convert to strings: the
    [length] it logs after the load, or the message it shows in its [catch]
    block. *)
Definition init_texts_printable (cfg els : Settled) : bool :=
  let message_printable (e : JsValue) :=
    match get_prop e "message" with
    | Normal m => printable (js_or m (JStr "Initialization failed"))
    | Throw _ => true
    end in
  match cfg, els with
  | Rejected e, _ => message_printable e
  | Resolved _, Rejected e => message_printable e
  | Resolved _, Resolved v =>
      match get_prop v "length" with
      | Normal n => printable n
      | Throw t => message_printable t
      end
  end.

(** The world after one listener has run on an event. *)
Definition after_listener
    (generate : JsValue -> JsValue -> string -> string -> string)
    (ev : UiEvent) (u : World) (l : Listener) : World :=
  snd (run_listener generate l ev u).

(** The callback an event is for, and what one run of it does. *)
Definition event_listener (ev : UiEvent) : Listener :=
  match ev with
  | ThemeSelected _ => ThemeChangeListener
  | SizeSelected _ => SizeChangeListener
  | ExportClicked => ExportClickListener
  | DocumentClicked _ => DocumentClickListener
  end.

Definition event_handler
    (generate : JsValue -> JsValue -> string -> string -> string)
    (ev : UiEvent) (u : World) : World :=
  match ev with
  | ThemeSelected value => snd (onThemeChange generate value u)
  | SizeSelected value => snd (onSizeChange generate value u)
  | ExportClicked => snd (exportSVG u)
  | DocumentClicked g => snd (onDocumentClick g u)
  end.

(** ** The module's top level *)

(** [document.readyState] *)
Inductive ReadyState : Type :=
| Loading
| Interactive
| Complete.

(** The page after the script has run: the application with its [init()]
    calls, and the number of [() => app.init()] callbacks waiting for
    [DOMContentLoaded]. *)
Record Script : Type := mkScript {
  script_sys : Sys;
  dom_ready_callbacks : nat
}.

(** The statements after the class: [new PeriodicTableApp()], then
    [init()] at once or on [DOMContentLoaded]. *)
Definition top_level (rs : ReadyState) (d : Dom) : Script :=
  let s := mkSys (mkWorld constructor d [] []) [] in
  match rs with
  | Loading => mkScript s 1
  | Interactive | Complete => mkScript (sys_init s) 0
  end.

(** [DOMContentLoaded] fires and runs its callbacks. *)
Definition dom_content_loaded (p : Script) : Script :=
  mkScript (Nat.iter (dom_ready_callbacks p) sys_init (script_sys p))
           (dom_ready_callbacks p).

(** * Properties *)

Ltac run_monad :=
  cbv [bind ret when lift_completion try_catch get_app get_dom get_listeners
       set_elements set_config set_currentTheme set_currentLayout
       set_innerHTML addEventListener emit console_log console_error];
  cbn [app dom listeners trace elements config currentTheme currentLayout
       table_container theme_select size_select export_btn fst snd].

(** ** Traces *)

Lemma generate_calls_app (s t : list Effect) :
  generate_calls (s ++ t) = (generate_calls s ++ generate_calls t)%list.
Proof.
  induction s as [| e s IH]; [reflexivity |].
  destruct e; cbn [generate_calls List.app]; rewrite IH; reflexivity.
Qed.

Lemma download_calls_app (s t : list Effect) :
  download_calls (s ++ t) = (download_calls s ++ download_calls t)%list.
Proof.
  induction s as [| e s IH]; [reflexivity |].
  destruct e; cbn [download_calls List.app]; rewrite IH; reflexivity.
Qed.

Lemma load_config_calls_app (s t : list Effect) :
  load_config_calls (s ++ t) = load_config_calls s + load_config_calls t.
Proof.
  induction s as [| e s IH]; [reflexivity |].
  destruct e; cbn [load_config_calls List.app]; rewrite IH; reflexivity.
Qed.

Lemma load_elements_calls_app (s t : list Effect) :
  load_elements_calls (s ++ t) = load_elements_calls s + load_elements_calls t.
Proof.
  induction s as [| e s IH]; [reflexivity |].
  destruct e; cbn [load_elements_calls List.app]; rewrite IH; reflexivity.
Qed.

(** ** The methods as world transformers *)

Lemma showError_eq (message : JsValue) (w : World) :
  showError message w =
  (Normal tt,
   mkWorld (app w) (dom_showing (error_html (to_string message)) (dom w))
           (listeners w) (trace w)).
Proof.
  destruct w as [a [c ts ss eb] ls tr].
  unfold showError, dom_showing, shown. run_monad.
  destruct c; reflexivity.
Qed.

Lemma exportSVG_eq (w : World) :
  exportSVG w =
  (Normal tt,
   mkWorld (app w) (dom w) (listeners w)
     (trace w ++
      [RendererDownloadSVG
         (export_filename (currentTheme (app w)) (currentLayout (app w)));
       ConsoleLog
         ("ElementsFactory: exported " ++
          export_filename (currentTheme (app w)) (currentLayout (app w)))])).
Proof.
  unfold exportSVG. run_monad. rewrite <- app_assoc. reflexivity.
Qed.

Section RendererProperties.

Variable generate : JsValue -> JsValue -> string -> string -> string.

Lemma render_absent (w : World) :
  has_data (app w) = false ->
  render generate w = showError (JStr "No data loaded") w.
Proof.
  unfold has_data, render. intros H. run_monad.
  destruct (truthy (elements (app w))), (truthy (config (app w)));
    try discriminate; reflexivity.
Qed.

Lemma render_present (w : World) :
  has_data (app w) = true ->
  render generate w =
  let a := app w in
  let svg := generate (elements a) (config a) (currentTheme a) (currentLayout a) in
  (Normal tt,
   mkWorld a (dom_showing svg (dom w)) (listeners w)
     (trace w ++
      [ConsoleLog (render_log (currentTheme a) (currentLayout a));
       RendererGenerate (elements a) (config a)
                        (currentTheme a) (currentLayout a)] ++
      match table_container (dom w) with
      | Some _ => []
      | None =>
          [ConsoleError "ElementsFactory: #table-container not found" None]
      end)).
Proof.
  unfold has_data, render, renderer_generate. intros H. run_monad.
  destruct (truthy (elements (app w))), (truthy (config (app w)));
    try discriminate.
  cbn [negb orb].
  destruct w as [a [c ts ss eb] ls tr]. unfold dom_showing, shown.
  cbn [app dom listeners trace table_container theme_select size_select
       export_btn].
  destruct c; run_monad; repeat rewrite <- app_assoc; reflexivity.
Qed.

(** Every [render()] adds the [generate] call of the stored data and
    selections when both data fields are truthy, and none otherwise. *)
Lemma render_generate_calls (w : World) :
  generate_calls (trace (snd (render generate w))) =
  (generate_calls (trace w) ++
   if has_data (app w)
   then [(elements (app w), config (app w),
          currentTheme (app w), currentLayout (app w))]
   else [])%list.
Proof.
  destruct (has_data (app w)) eqn:H.
  - rewrite (render_present w H). cbn [snd trace].
    rewrite generate_calls_app. f_equal.
    destruct (table_container (dom w)); reflexivity.
  - rewrite (render_absent w H), showError_eq. cbn [snd trace].
    rewrite app_nil_r. reflexivity.
Qed.

Lemma render_returns (w : World) : fst (render generate w) = Normal tt.
Proof.
  destruct (has_data (app w)) eqn:H.
  - rewrite (render_present w H). reflexivity.
  - rewrite (render_absent w H), showError_eq. reflexivity.
Qed.

Lemma render_app (w : World) : app (snd (render generate w)) = app w.
Proof.
  destruct (has_data (app w)) eqn:H.
  - rewrite (render_present w H). reflexivity.
  - rewrite (render_absent w H), showError_eq. reflexivity.
Qed.

Lemma render_listeners (w : World) :
  listeners (snd (render generate w)) = listeners w.
Proof.
  destruct (has_data (app w)) eqn:H.
  - rewrite (render_present w H). reflexivity.
  - rewrite (render_absent w H), showError_eq. reflexivity.
Qed.

Lemma render_container (w : World) :
  table_container (dom (snd (render generate w))) =
  shown (if has_data (app w)
         then generate (elements (app w)) (config (app w))
                       (currentTheme (app w)) (currentLayout (app w))
         else error_html "No data loaded")
        (dom w).
Proof.
  destruct (has_data (app w)) eqn:H.
  - rewrite (render_present w H). reflexivity.
  - rewrite (render_absent w H), showError_eq. reflexivity.
Qed.

End RendererProperties.

Lemma shown_again (html : string) (d d' : Dom) :
  table_container d' = shown html d -> shown html d' = shown html d.
Proof.
  unfold shown. intros ->. destruct (table_container d); reflexivity.
Qed.

Section Controller.

Variable generate : JsValue -> JsValue -> string -> string -> string.

(** The app after a selection of [value] in the theme selector. *)
Lemma onThemeChange_eq (value : string) (w : World) :
  onThemeChange generate value w =
  render generate
    (mkWorld (mkApp (elements (app w)) (config (app w)) value
                    (currentLayout (app w)))
             (dom w) (listeners w) (trace w)).
Proof. reflexivity. Qed.

Lemma onSizeChange_eq (value : string) (w : World) :
  onSizeChange generate value w =
  render generate
    (mkWorld (mkApp (elements (app w)) (config (app w))
                    (currentTheme (app w)) value)
             (dom w) (listeners w) (trace w)).
Proof. reflexivity. Qed.

Lemma setupEventListeners_eq (w : World) :
  setupEventListeners w =
  (Normal tt,
   mkWorld (app w) (dom w) (listeners w ++ installed (dom w)) (trace w)).
Proof.
  unfold setupEventListeners, setupElementInteractivity, installed.
  run_monad.
  destruct (theme_select (dom w)), (size_select (dom w)), (export_btn (dom w));
    run_monad; repeat rewrite <- app_assoc; reflexivity.
Qed.

Lemma init_catch_eq (error : JsValue) (w : World) :
  init_catch error w =
  let logged :=
    (trace w ++
     [ConsoleError "ElementsFactory initialization error:" (Some error)])%list in
  match get_prop error "message" with
  | Normal m =>
      (Normal tt,
       mkWorld (app w)
         (dom_showing
            (error_html (to_string (js_or m (JStr "Initialization failed"))))
            (dom w))
         (listeners w) logged)
  | Throw t => (Throw t, mkWorld (app w) (dom w) (listeners w) logged)
  end.
Proof.
  unfold init_catch. run_monad.
  destruct (get_prop error "message"); [| reflexivity].
  rewrite showError_eq. reflexivity.
Qed.

Lemma init_catch_app (error : JsValue) (w : World) :
  app (snd (init_catch error w)) = app w.
Proof.
  rewrite init_catch_eq. destruct (get_prop error "message"); reflexivity.
Qed.

Lemma init_catch_listeners (error : JsValue) (w : World) :
  listeners (snd (init_catch error w)) = listeners w.
Proof.
  rewrite init_catch_eq. destruct (get_prop error "message"); reflexivity.
Qed.

Lemma init_catch_generate_calls (error : JsValue) (w : World) :
  generate_calls (trace (snd (init_catch error w))) = generate_calls (trace w).
Proof.
  rewrite init_catch_eq.
  destruct (get_prop error "message"); cbn [snd trace];
    rewrite generate_calls_app; apply app_nil_r.
Qed.

Lemma settle_init_world (r : Completion unit * World) :
  snd (settle_init r) = snd r.
Proof. destruct r as [[u | e] w]; reflexivity. Qed.

Lemma init_call_eq (w : World) :
  init_call w =
  (Pending AwaitingConfig,
   mkWorld (app w) (dom w) (listeners w)
     (trace w ++
      [ConsoleLog "ElementsFactory: initializing...";
       ConsoleLog "ElementsFactory: loading config and elements...";
       ParserLoadConfig])).
Proof.
  unfold init_call, init_enter. run_monad.
  repeat rewrite <- app_assoc. reflexivity.
Qed.

Lemma init_run_config_rejected (e : JsValue) (els : Settled) (w : World) :
  init_run generate (Rejected e) els w =
  settle_init
    (init_catch e
       (mkWorld (app w) (dom w) (listeners w)
          (trace w ++
           [ConsoleLog "ElementsFactory: initializing...";
            ConsoleLog "ElementsFactory: loading config and elements...";
            ParserLoadConfig]))).
Proof.
  unfold init_run. rewrite init_call_eq. cbn [init_resume].
  destruct (settle_init _) as [[pc | | t] w'] eqn:E; try reflexivity.
  exfalso. revert E. rewrite init_catch_eq.
  destruct (get_prop e "message"); discriminate.
Qed.

Lemma init_run_elements_rejected (c e : JsValue) (w : World) :
  init_run generate (Resolved c) (Rejected e) w =
  settle_init
    (init_catch e
       (mkWorld (mkApp (elements (app w)) c
                       (currentTheme (app w)) (currentLayout (app w)))
                (dom w) (listeners w) (trace w ++ load_prefix))).
Proof.
  unfold init_run. rewrite init_call_eq.
  unfold init_resume at 1, loadData_config. run_monad.
  cbn [init_resume]. rewrite <- app_assoc. reflexivity.
Qed.

Lemma init_run_resolved (c v : JsValue) (w : World) :
  init_run generate (Resolved c) (Resolved v) w =
  let a := mkApp v c (currentTheme (app w)) (currentLayout (app w)) in
  match get_prop v "length" with
  | Throw t =>
      settle_init
        (init_catch t (mkWorld a (dom w) (listeners w) (trace w ++ load_prefix)))
  | Normal n =>
      settle_init
        ((render generate ;; console_log "ElementsFactory: ready.")
           (mkWorld a (dom w) (listeners w ++ installed (dom w))
              (trace w ++ load_prefix ++
               [ConsoleLog
                  ("ElementsFactory: loaded " ++ to_string n ++ " elements.")])))
  end.
Proof.
  unfold init_run. rewrite init_call_eq.
  unfold init_resume at 1, loadData_config. run_monad.
  unfold init_resume, loadData_elements, init_ready. run_monad.
  rewrite <- app_assoc. cbn [List.app].
  destruct (get_prop v "length") as [n | t]; [| reflexivity].
  rewrite setupEventListeners_eq. run_monad.
  rewrite <- app_assoc. unfold load_prefix. cbn [List.app].
  match goal with
  | |- context [render generate ?w0] =>
      pose proof (render_returns generate w0) as R;
      destruct (render generate w0) as [[u | t] w1]
  end; [reflexivity | discriminate R].
Qed.

End Controller.

(** ** Rendering *)

(** C1, as stated, fails: [render()] never returns an error value, and on a
    page without [#table-container] it reports nothing anywhere.  On the
    application as constructed (no data) and such a page, [render()] returns
    normally and leaves the whole world as it was: no message in the
    document, no line on the console, no call to a collaborator. *)
Lemma render_without_data_reports_nothing :
  let w := mkWorld constructor (mkDom None true true true) [] [] in
  truthy (elements (app w)) = false /\
  truthy (config (app w)) = false /\
  render stub_generate w = (Normal tt, w).
Proof. cbv zeta. repeat split. Qed.

(** C1, amended.  In every state where [elements] or [config] is absent
    (falsy, as [render] tests it), [render()] returns normally and returns no
    error value, makes no call to any collaborator, so none to
    [renderer.generate], leaves the fields and the listeners as they were,
    and calls [showError('No data loaded')]: on a page with a container the
    container then holds that message; on a page without one nothing is
    reported and the world is unchanged. *)
Theorem render_without_data
    (generate : JsValue -> JsValue -> string -> string -> string)
    (w : World) :
  truthy (elements (app w)) = false \/ truthy (config (app w)) = false ->
  render generate w = showError (JStr "No data loaded") w /\
  fst (render generate w) = Normal tt /\
  trace (snd (render generate w)) = trace w /\
  generate_calls (trace (snd (render generate w))) = generate_calls (trace w) /\
  app (snd (render generate w)) = app w /\
  listeners (snd (render generate w)) = listeners w /\
  match table_container (dom w) with
  | Some _ =>
      table_container (dom (snd (render generate w))) =
        Some (error_html "No data loaded")
  | None => snd (render generate w) = w
  end.
Proof.
  intros H.
  assert (D : has_data (app w) = false).
  { unfold has_data. destruct H as [H | H]; rewrite H;
      [reflexivity | apply andb_false_r]. }
  rewrite (render_absent generate w D), showError_eq.
  cbn [fst snd app dom listeners trace].
  repeat split.
  unfold dom_showing, shown.
  destruct w as [a [[html |] ts ss eb] ls tr];
    cbn [dom table_container theme_select size_select export_btn app
         listeners trace];
    reflexivity.
Qed.

Lemma render_without_data_witness :
  (truthy (elements (app fresh_world)) = false \/
   truthy (config (app fresh_world)) = false) /\
  fst (render stub_generate fresh_world) = Normal tt /\
  generate_calls (trace (snd (render stub_generate fresh_world))) = [] /\
  table_container (dom (snd (render stub_generate fresh_world))) =
    Some (error_html "No data loaded").
Proof.
  assert (H : truthy (elements (app fresh_world)) = false \/
              truthy (config (app fresh_world)) = false)
    by (left; reflexivity).
  split; [exact H |].
  destruct (render_without_data stub_generate fresh_world H)
    as (_ & R & _ & G & _ & _ & C).
  repeat split; assumption.
Defined.

(** C2. With both data fields loaded, [render()] calls [renderer.generate]
    exactly once, with the stored elements, config, theme and layout, and
    hands its document to the container unmodified; a selection of [theme]
    stores it, keeps the layout and renders with exactly that theme and the
    layout set before, as does a further [render()]; no other method calls
    [renderer.generate]. *)
Theorem render_calls_generate_once
    (generate : JsValue -> JsValue -> string -> string -> string)
    (w : World) (theme : string) :
  truthy (elements (app w)) = true ->
  truthy (config (app w)) = true ->
  let els := elements (app w) in
  let cfg := config (app w) in
  let layout := currentLayout (app w) in
  let w1 := snd (render generate w) in
  let w2 := snd (onThemeChange generate theme w) in
  let w3 := snd (render generate w2) in
  (generate_calls (trace w1) =
     generate_calls (trace w) ++ [(els, cfg, currentTheme (app w), layout)] /\
   table_container (dom w1) =
     shown (generate els cfg (currentTheme (app w)) layout) (dom w))%list /\
  (currentTheme (app w2) = theme /\
   currentLayout (app w2) = layout /\
   generate_calls (trace w2) =
     generate_calls (trace w) ++ [(els, cfg, theme, layout)] /\
   table_container (dom w2) = shown (generate els cfg theme layout) (dom w) /\
   generate_calls (trace w3) =
     generate_calls (trace w2) ++ [(els, cfg, theme, layout)] /\
   table_container (dom w3) = table_container (dom w2))%list /\
  (generate_calls (trace (snd (exportSVG w))) = generate_calls (trace w) /\
   (forall m, generate_calls (trace (snd (showError m w))) =
              generate_calls (trace w)) /\
   generate_calls (trace (snd (setupEventListeners w))) =
     generate_calls (trace w) /\
   (forall g, generate_calls (trace (snd (onDocumentClick g w))) =
              generate_calls (trace w)) /\
   (forall e, generate_calls (trace (snd (init_catch e w))) =
              generate_calls (trace w)) /\
   generate_calls (trace (snd (init_call w))) = generate_calls (trace w)).
Proof.
  intros He Hc els cfg layout w1 w2 w3.
  assert (D : has_data (app w) = true)
    by (unfold has_data; rewrite He, Hc; reflexivity).
  split; [| split].
  - subst w1. rewrite render_generate_calls, render_container, D.
    split; reflexivity.
  - pose (w0 := mkWorld (mkApp els cfg theme layout) (dom w) (listeners w)
                        (trace w)).
    assert (E2 : w2 = snd (render generate w0)) by reflexivity.
    assert (D0 : has_data (app w0) = true) by exact D.
    assert (A2 : app w2 = app w0) by (rewrite E2; apply render_app).
    assert (C2 : table_container (dom w2) =
                 shown (generate els cfg theme layout) (dom w)).
    { rewrite E2, render_container, D0. reflexivity. }
    assert (G2 : generate_calls (trace w2) =
                 (generate_calls (trace w) ++ [(els, cfg, theme, layout)])%list).
    { rewrite E2, render_generate_calls, D0. reflexivity. }
    assert (G3 : generate_calls (trace w3) =
                 (generate_calls (trace w2) ++ [(els, cfg, theme, layout)])%list).
    { subst w3. rewrite render_generate_calls, A2, D0. reflexivity. }
    assert (C3 : table_container (dom w3) = table_container (dom w2)).
    { subst w3. rewrite render_container, A2, D0, C2.
      apply shown_again. exact C2. }
    rewrite A2. repeat split; assumption.
  - rewrite exportSVG_eq, setupEventListeners_eq, init_call_eq.
    cbn [snd trace]. repeat rewrite generate_calls_app.
    repeat split; try apply app_nil_r.
    + intros m. rewrite showError_eq. reflexivity.
    + intros [g |]; [| reflexivity].
      unfold onDocumentClick. run_monad.
      rewrite generate_calls_app. apply app_nil_r.
    + intros e. apply init_catch_generate_calls.
Qed.

Lemma render_calls_generate_once_witness :
  truthy (elements (app ready_world)) = true /\
  truthy (config (app ready_world)) = true /\
  generate_calls
    (trace (snd (onThemeChange stub_generate "dark" ready_world))) =
  [(sample_elements, sample_config, "light", "normal");
   (sample_elements, sample_config, "dark", "normal")].
Proof.
  split; [reflexivity |]. split; [reflexivity |].
  destruct (render_calls_generate_once stub_generate ready_world "dark"
              eq_refl eq_refl) as (_ & (_ & _ & G & _) & _).
  exact G.
Defined.

(** C7. With data loaded and [theme] already current, selecting [theme]
    again renders again, each time: two selections in a row add two
    [renderer.generate] calls with the same four arguments, leave the fields
    as they were and put the same document in the container. *)
Theorem setTheme_same_theme_rerenders
    (generate : JsValue -> JsValue -> string -> string -> string)
    (w : World) (theme : string) :
  truthy (elements (app w)) = true ->
  truthy (config (app w)) = true ->
  currentTheme (app w) = theme ->
  let call :=
    (elements (app w), config (app w), theme, currentLayout (app w)) in
  let svg :=
    generate (elements (app w)) (config (app w)) theme
             (currentLayout (app w)) in
  let w1 := snd (onThemeChange generate theme w) in
  let w2 := snd (onThemeChange generate theme w1) in
  (generate_calls (trace w1) = generate_calls (trace w) ++ [call] /\
   generate_calls (trace w2) = generate_calls (trace w1) ++ [call])%list /\
  app w1 = app w /\
  app w2 = app w /\
  table_container (dom w1) = shown svg (dom w) /\
  table_container (dom w2) = table_container (dom w1).
Proof.
  intros He Hc Ht call svg w1 w2.
  assert (D : has_data (app w) = true)
    by (unfold has_data; rewrite He, Hc; reflexivity).
  assert (step : forall u : World,
    app u = app w ->
    let u' := snd (onThemeChange generate theme u) in
    app u' = app w /\
    generate_calls (trace u') = (generate_calls (trace u) ++ [call])%list /\
    table_container (dom u') = shown svg (dom u)).
  { intros u Hu u'. subst u'. rewrite onThemeChange_eq.
    rewrite render_app, render_generate_calls, render_container.
    cbn [app dom trace elements config currentTheme currentLayout].
    rewrite Hu.
    assert (Ea : mkApp (elements (app w)) (config (app w)) theme
                       (currentLayout (app w)) = app w).
    { rewrite <- Ht. destruct (app w). reflexivity. }
    rewrite Ea, D. repeat split. }
  destruct (step w eq_refl) as (A1 & G1 & C1).
  destruct (step w1 A1) as (A2 & G2 & C2).
  fold w1 in A1, G1, C1. fold w2 in A2, G2, C2.
  repeat split; try assumption.
  rewrite C2, (shown_again svg (dom w) (dom w1) C1). symmetry. exact C1.
Qed.

Lemma setTheme_same_theme_rerenders_witness :
  (truthy (elements (app ready_world)) = true /\
   truthy (config (app ready_world)) = true /\
   currentTheme (app ready_world) = "light") /\
  app (snd (onThemeChange stub_generate "light"
              (snd (onThemeChange stub_generate "light" ready_world)))) =
  app ready_world.
Proof.
  split; [repeat split |].
  destruct (setTheme_same_theme_rerenders stub_generate ready_world "light"
              eq_refl eq_refl eq_refl) as (_ & _ & A2 & _).
  exact A2.
Defined.

Section Initialisation.

Variable generate : JsValue -> JsValue -> string -> string -> string.

Lemma render_then_log (msg : string) (w : World) :
  (render generate ;; console_log msg) w =
  let w' := snd (render generate w) in
  (Normal tt,
   mkWorld (app w') (dom w') (listeners w') (trace w' ++ [ConsoleLog msg])).
Proof.
  run_monad. pose proof (render_returns generate w) as R.
  destruct (render generate w) as [[u | t] w']; [reflexivity | discriminate R].
Qed.

(** No path of [init()] writes the theme or the layout. *)
Lemma init_run_selection (cfg els : Settled) (w : World) :
  currentTheme (app (snd (init_run generate cfg els w))) =
    currentTheme (app w) /\
  currentLayout (app (snd (init_run generate cfg els w))) =
    currentLayout (app w).
Proof.
  destruct cfg as [c | e].
  - destruct els as [v | e].
    + rewrite init_run_resolved. cbv zeta.
      destruct (get_prop v "length"); rewrite settle_init_world.
      * rewrite render_then_log. cbn [snd app]. rewrite render_app.
        split; reflexivity.
      * rewrite init_catch_app. split; reflexivity.
    + rewrite init_run_elements_rejected, settle_init_world, init_catch_app.
      split; reflexivity.
  - rewrite init_run_config_rejected, settle_init_world, init_catch_app.
    split; reflexivity.
Qed.

End Initialisation.

(** C9. The constructor sets the theme to ['light'] and the layout to
    ['normal'] (and both data fields to [null]); [init()] never writes
    them, whatever the parser does, so they hold before any load and after
    a failed one as well as after a successful one. *)
Theorem constructor_defaults
    (generate : JsValue -> JsValue -> string -> string -> string) :
  currentTheme constructor = "light" /\
  currentLayout constructor = "normal" /\
  elements constructor = JNull /\
  config constructor = JNull /\
  (forall d, currentTheme (app (world (boot d))) = "light" /\
             currentLayout (app (world (boot d))) = "normal") /\
  (forall (cfg els : Settled) (d : Dom) ls tr,
     let w := mkWorld constructor d ls tr in
     currentTheme (app (snd (init_run generate cfg els w))) = "light" /\
     currentLayout (app (snd (init_run generate cfg els w))) = "normal").
Proof.
  repeat split; try reflexivity;
    apply (init_run_selection generate cfg els (mkWorld constructor d ls tr)).
Qed.

(** C10. [exportSVG()] returns normally and changes neither the four fields
    nor the document nor the listeners: it only adds its [downloadSVG] call
    and its log line to the trace. *)
Theorem exportSVG_preserves_state (w : World) :
  let w' := snd (exportSVG w) in
  elements (app w') = elements (app w) /\
  config (app w') = config (app w) /\
  currentTheme (app w') = currentTheme (app w) /\
  currentLayout (app w') = currentLayout (app w) /\
  dom w' = dom w /\
  listeners w' = listeners w.
Proof. rewrite exportSVG_eq. repeat split. Qed.

(** ** Selections *)

(** C3, as stated, fails: the selectors' callbacks do not validate.  On the
    loaded sample page a theme selection of ["neon"], a member of no theme
    enumeration, raises nothing and replaces the stored theme ["light"];
    likewise the layout with ["gigantic"]. *)
Lemma setTheme_unknown_value_is_stored :
  let r := dispatch stub_generate (ThemeSelected "neon") ready_world in
  let r' := dispatch stub_generate (SizeSelected "gigantic") ready_world in
  currentTheme (app ready_world) = "light" /\
  currentLayout (app ready_world) = "normal" /\
  (fst r = Normal tt /\
   currentTheme (app (snd r)) = "neon" /\
   app (snd r) <> app ready_world) /\
  (fst r' = Normal tt /\
   currentLayout (app (snd r')) = "gigantic" /\
   app (snd r') <> app ready_world).
Proof.
  cbv zeta. repeat split; try reflexivity; intros H; discriminate H.
Qed.

(** C3, amended.  For every string [value], in or out of any enumeration,
    the theme callback returns normally, stores [value] as the current
    theme, keeps the layout and the data, and renders (one
    [renderer.generate] call with [value] when data is loaded); the size
    callback does the same for the layout. *)
Theorem setTheme_stores_any_value
    (generate : JsValue -> JsValue -> string -> string -> string)
    (w : World) (value : string) :
  let els := elements (app w) in
  let cfg := config (app w) in
  let r1 := onThemeChange generate value w in
  let r2 := onSizeChange generate value w in
  (fst r1 = Normal tt /\
   app (snd r1) = mkApp els cfg value (currentLayout (app w)) /\
   generate_calls (trace (snd r1)) =
     generate_calls (trace w) ++
     if has_data (app w)
     then [(els, cfg, value, currentLayout (app w))] else [])%list /\
  (fst r2 = Normal tt /\
   app (snd r2) = mkApp els cfg (currentTheme (app w)) value /\
   generate_calls (trace (snd r2)) =
     generate_calls (trace w) ++
     if has_data (app w)
     then [(els, cfg, currentTheme (app w), value)] else [])%list.
Proof.
  cbv zeta. rewrite onThemeChange_eq, onSizeChange_eq.
  rewrite !render_returns, !render_app, !render_generate_calls.
  repeat split.
Qed.

(** ** Export *)

(** C5, as stated, fails in its concrete scenario: after the size selector
    is set to ["compact"] on the loaded sample page (theme ["light"]), a
    click on the export button downloads
    ["elementsfactory-light-compact.svg"], not ["table-light-compact.svg"]. *)
Lemma export_filename_is_not_table :
  let w := snd (dispatch stub_generate (SizeSelected "compact") ready_world) in
  let w' := snd (dispatch stub_generate ExportClicked w) in
  currentTheme (app w) = "light" /\
  currentLayout (app w) = "compact" /\
  download_calls (trace w') = ["elementsfactory-light-compact.svg"] /\
  download_calls (trace w') <> ["table-light-compact.svg"].
Proof.
  cbv zeta. repeat split; try reflexivity. intros H; discriminate H.
Qed.

(** C5, amended.  Every [exportSVG()] hands [renderer.downloadSVG] the name
    [elementsfactory-<theme>-<layout>.svg] of the theme and layout stored at
    the call; after a load from the top level, with the size selector then
    set to ["compact"], a click on the export button downloads
    ["elementsfactory-light-compact.svg"]. *)
Theorem exportSVG_filename
    (generate : JsValue -> JsValue -> string -> string -> string)
    (w : World) :
  download_calls (trace (snd (exportSVG w))) =
    (download_calls (trace w) ++
     [export_filename (currentTheme (app w)) (currentLayout (app w))])%list /\
  (forall theme layout,
     export_filename theme layout =
     "elementsfactory-" ++ theme ++ "-" ++ layout ++ ".svg") /\
  (forall items fields,
     let loaded :=
       sys_settle generate 0 (Resolved (JArr items))
         (sys_settle generate 0 (Resolved (JObj fields)) (boot page)) in
     let s :=
       sys_dispatch generate ExportClicked
         (sys_dispatch generate (SizeSelected "compact") loaded) in
     calls s = [Fulfilled] /\
     download_calls (trace (world s)) =
       ["elementsfactory-light-compact.svg"]).
Proof.
  split; [| split].
  - rewrite exportSVG_eq. cbn [snd trace].
    rewrite download_calls_app. reflexivity.
  - reflexivity.
  - intros items fields. cbv zeta. split; reflexivity.
Qed.

(** C6, as stated, fails: [exportSVG] has no guard.  When the parser
    resolves the config to [null], [init()] installs the listeners and its
    [render()] only shows 'No data loaded'; a click on the export button then
    calls [renderer.downloadSVG] although [renderer.generate] was never
    called.  The same holds for a direct [exportSVG()] on the application as
    constructed. *)
Lemma export_without_render :
  let w :=
    snd (init_run stub_generate (Resolved JNull) (Resolved sample_elements)
           fresh_world) in
  let r := dispatch stub_generate ExportClicked w in
  (generate_calls (trace w) = [] /\
   fst r = Normal tt /\
   generate_calls (trace (snd r)) = [] /\
   download_calls (trace (snd r)) = ["elementsfactory-light-normal.svg"]) /\
  (fst (exportSVG fresh_world) = Normal tt /\
   download_calls (trace (snd (exportSVG fresh_world))) =
     ["elementsfactory-light-normal.svg"]).
Proof. cbv zeta. repeat split. Qed.

(** C6, amended.  [exportSVG()] never fails and does not look at what was
    rendered: in every state it returns normally after exactly one
    [renderer.downloadSVG] call, with the name derived from the stored theme
    and layout, and one log line. *)
Theorem exportSVG_never_fails (w : World) :
  let filename :=
    export_filename (currentTheme (app w)) (currentLayout (app w)) in
  fst (exportSVG w) = Normal tt /\
  trace (snd (exportSVG w)) =
    (trace w ++
     [RendererDownloadSVG filename;
      ConsoleLog ("ElementsFactory: exported " ++ filename)])%list /\
  generate_calls (trace (snd (exportSVG w))) = generate_calls (trace w).
Proof.
  cbv zeta. rewrite exportSVG_eq. cbn [fst snd trace].
  rewrite generate_calls_app. repeat split. apply app_nil_r.
Qed.

(** ** Initialisation *)

(** C4, as stated, fails: the load is not all-or-nothing, and an empty
    collection is not a failure.  On the application as constructed, when
    [parser.loadConfig()] resolves and [parser.loadElements()] rejects,
    [init()] ends with the config stored and the elements still [null], and
    its promise is fulfilled; when the elements resolve to the empty array,
    [init()] installs the listeners and renders it. *)
Lemma init_leaves_config_without_elements :
  let r :=
    init_run stub_generate (Resolved sample_config)
             (Rejected (JError "Error" "HTTP 404")) fresh_world in
  let r' :=
    init_run stub_generate (Resolved sample_config) (Resolved (JArr []))
             fresh_world in
  (fst r = Fulfilled /\
   config (app (snd r)) = sample_config /\
   elements (app (snd r)) = JNull /\
   app (snd r) <> app fresh_world) /\
  (fst r' = Fulfilled /\
   elements (app (snd r')) = JArr [] /\
   generate_calls (trace (snd r')) =
     [(JArr [], sample_config, "light", "normal")]).
Proof.
  cbv zeta. repeat split; try reflexivity. intros H; discriminate H.
Qed.

Section InitOutcomes.

Variable generate : JsValue -> JsValue -> string -> string -> string.

(** How the [catch] block of [init] ends on [error]: the promise, and what
    the container shows. *)
Lemma init_catch_outcome (error : JsValue) (w : World) :
  let r := settle_init (init_catch error w) in
  match get_prop error "message" with
  | Normal m =>
      fst r = Fulfilled /\
      table_container (dom (snd r)) =
        shown (error_html (to_string (js_or m (JStr "Initialization failed"))))
              (dom w)
  | Throw t => fst r = RejectedWith t /\ dom (snd r) = dom w
  end.
Proof.
  cbv zeta. rewrite init_catch_eq.
  destruct (get_prop error "message"); split; reflexivity.
Qed.

Lemma length_of_nullish (v t : JsValue) :
  get_prop v "length" = Throw t ->
  t = read_of_nullish v "length" /\
  get_prop t "message" =
    Normal (JStr ("Cannot read properties of " ++ to_string v ++
                  " (reading 'length')")).
Proof.
  destruct v; cbn; intros H; try discriminate H;
    try (injection H as <-; split; reflexivity).
  all: match type of H with
       | (if ?b then _ else _) = _ => destruct b; discriminate H
       end.
Qed.

End InitOutcomes.

(** C4, amended.  [init()] stores the config as soon as
    [parser.loadConfig()] resolves and the elements as soon as
    [parser.loadElements()] resolves.  When the config load rejects, no field
    changes and the elements are not requested; when the elements load
    rejects, the config stays stored and the elements are unchanged; when the
    elements resolve to a value whose [length] cannot be read, both are
    stored.  In these three cases no listener is installed,
    [renderer.generate] is not called and no error is returned.  What is
    reported then: after a rejection with [null] or [undefined], reading
    [error.message] in the [catch] block throws, the document is left as it
    was and the promise of [init()] rejects with that [TypeError]; otherwise,
    when [error.message || 'Initialization failed'] converts to a string, the
    container shows that text and the promise is fulfilled.  Otherwise (an
    empty array included), when the [length] converts to a string for the
    log, both fields are stored, each parser function was called once, the
    listeners are installed and [render()] runs once: one
    [renderer.generate] call when both values are truthy. *)
Theorem init_load_outcomes
    (generate : JsValue -> JsValue -> string -> string -> string)
    (w : World) :
  let theme := currentTheme (app w) in
  let layout := currentLayout (app w) in
  let reports (e : JsValue) (r : InitPromise * World) :=
    match get_prop e "message" with
    | Normal m =>
        printable (js_or m (JStr "Initialization failed")) = true ->
        fst r = Fulfilled /\
        table_container (dom (snd r)) =
          shown (error_html
                   (to_string (js_or m (JStr "Initialization failed"))))
                (dom w)
    | Throw t => fst r = RejectedWith t /\ dom (snd r) = dom w
    end in
  (forall e els,
     let r := init_run generate (Rejected e) els w in
     app (snd r) = app w /\
     listeners (snd r) = listeners w /\
     generate_calls (trace (snd r)) = generate_calls (trace w) /\
     load_elements_calls (trace (snd r)) = load_elements_calls (trace w) /\
     reports e r) /\
  (forall c e,
     let r := init_run generate (Resolved c) (Rejected e) w in
     app (snd r) = mkApp (elements (app w)) c theme layout /\
     listeners (snd r) = listeners w /\
     generate_calls (trace (snd r)) = generate_calls (trace w) /\
     reports e r) /\
  (forall c v,
     let r := init_run generate (Resolved c) (Resolved v) w in
     app (snd r) = mkApp v c theme layout /\
     load_config_calls (trace (snd r)) = S (load_config_calls (trace w)) /\
     load_elements_calls (trace (snd r)) = S (load_elements_calls (trace w)) /\
     match get_prop v "length" with
     | Throw _ =>
         listeners (snd r) = listeners w /\
         generate_calls (trace (snd r)) = generate_calls (trace w) /\
         fst r = Fulfilled /\
         table_container (dom (snd r)) =
           shown (error_html ("Cannot read properties of " ++ to_string v ++
                              " (reading 'length')"))
                 (dom w)
     | Normal n =>
         printable n = true ->
         fst r = Fulfilled /\
         (listeners (snd r) = listeners w ++ installed (dom w) /\
          generate_calls (trace (snd r)) =
            generate_calls (trace w) ++
            if truthy v && truthy c then [(v, c, theme, layout)] else [])%list
     end).
Proof.
  cbv zeta. split; [| split].
  - intros e els. rewrite init_run_config_rejected.
    pose proof (init_catch_outcome e
      (mkWorld (app w) (dom w) (listeners w)
         (trace w ++
          [ConsoleLog "ElementsFactory: initializing...";
           ConsoleLog "ElementsFactory: loading config and elements...";
           ParserLoadConfig]))) as O.
    cbv zeta in O. cbn [dom] in O.
    rewrite settle_init_world in *.
    rewrite init_catch_app, init_catch_listeners, init_catch_generate_calls.
    cbn [app listeners trace]. rewrite generate_calls_app, app_nil_r.
    split; [reflexivity |]. split; [reflexivity |]. split; [reflexivity |].
    split.
    + rewrite init_catch_eq.
      destruct (get_prop e "message"); cbn [snd trace];
        rewrite !load_elements_calls_app; cbn; lia.
    + revert O. destruct (get_prop e "message"); intros O; [intros _ |];
        exact O.
  - intros c e. rewrite init_run_elements_rejected.
    pose proof (init_catch_outcome e
      (mkWorld (mkApp (elements (app w)) c (currentTheme (app w))
                      (currentLayout (app w)))
               (dom w) (listeners w) (trace w ++ load_prefix))) as O.
    cbv zeta in O. cbn [dom] in O.
    rewrite settle_init_world in *.
    rewrite init_catch_app, init_catch_listeners, init_catch_generate_calls.
    cbn [app listeners trace]. rewrite generate_calls_app, app_nil_r.
    split; [reflexivity |]. split; [reflexivity |]. split; [reflexivity |].
    revert O. destruct (get_prop e "message"); intros O; [intros _ |];
      exact O.
  - intros c v. rewrite init_run_resolved. cbv zeta.
    destruct (get_prop v "length") as [n | t] eqn:L.
    + rewrite settle_init_world, render_then_log. cbv zeta.
      cbn [fst snd app listeners trace settle_init].
      rewrite render_app, render_listeners.
      rewrite load_config_calls_app, load_elements_calls_app.
      rewrite generate_calls_app, render_generate_calls.
      cbn [app listeners trace elements config currentTheme currentLayout].
      unfold has_data. cbn [elements config].
      rewrite !generate_calls_app.
      cbn [generate_calls load_prefix List.app].
      rewrite !app_nil_r.
      split; [reflexivity |]. split; [| split].
      * destruct (has_data (mkApp v c (currentTheme (app w))
                                  (currentLayout (app w)))) eqn:D.
        -- rewrite render_present by exact D. cbv zeta. cbn [snd trace].
           rewrite !load_config_calls_app. cbn [app dom table_container].
           destruct (table_container (dom w)); cbn; lia.
        -- rewrite render_absent by exact D. rewrite showError_eq.
           cbn [snd trace]. rewrite !load_config_calls_app. cbn. lia.
      * destruct (has_data (mkApp v c (currentTheme (app w))
                                  (currentLayout (app w)))) eqn:D.
        -- rewrite render_present by exact D. cbv zeta. cbn [snd trace].
           rewrite !load_elements_calls_app. cbn [app dom table_container].
           destruct (table_container (dom w)); cbn; lia.
        -- rewrite render_absent by exact D. rewrite showError_eq.
           cbn [snd trace]. rewrite !load_elements_calls_app. cbn. lia.
      * intros _. repeat split.
    + pose proof (init_catch_outcome t
        (mkWorld (mkApp v c (currentTheme (app w)) (currentLayout (app w)))
                 (dom w) (listeners w) (trace w ++ load_prefix))) as O.
      cbv zeta in O. cbn [dom] in O.
      destruct (length_of_nullish v t L) as [_ Hm]. rewrite Hm in O.
      rewrite settle_init_world in *.
      rewrite init_catch_app, init_catch_listeners, init_catch_generate_calls.
      cbn [app listeners trace]. rewrite generate_calls_app, app_nil_r.
      destruct O as [O1 O2].
      repeat split; try assumption.
      * rewrite init_catch_eq.
        destruct (get_prop t "message"); cbn [snd trace];
          rewrite !load_config_calls_app; cbn; lia.
      * rewrite init_catch_eq.
        destruct (get_prop t "message"); cbn [snd trace];
          rewrite !load_elements_calls_app; cbn; lia.
Qed.

Lemma init_load_outcomes_witness :
  let failed :=
    init_run stub_generate (Resolved sample_config)
             (Rejected (JError "Error" "HTTP 404")) fresh_world in
  let loaded :=
    init_run stub_generate (Resolved sample_config)
             (Resolved sample_elements) fresh_world in
  (printable (JStr "HTTP 404") = true /\ printable (JNum 2) = true) /\
  (fst failed = Fulfilled /\
   table_container (dom (snd failed)) = Some (error_html "HTTP 404")) /\
  (fst loaded = Fulfilled /\
   generate_calls (trace (snd loaded)) =
     [(sample_elements, sample_config, "light", "normal")]).
Proof.
  cbv zeta. split; [split; reflexivity |].
  destruct (init_load_outcomes stub_generate fresh_world) as (_ & F & L).
  split.
  - destruct (F sample_config (JError "Error" "HTTP 404")) as (_ & _ & _ & R).
    exact (R eq_refl).
  - destruct (L sample_config sample_elements) as (_ & _ & _ & R).
    destruct (R eq_refl) as (P & _ & G).
    split; [exact P | exact G].
Defined.

(** C8, as stated, fails: [init] has no re-entrance guard.  A second
    [init()] while the top-level one is suspended on the config is not
    rejected; it calls [parser.loadConfig] again and is suspended too.  When
    the four promises then resolve, the elements were requested twice, the
    table was generated twice and every listener is registered twice. *)
Lemma init_is_reentrant :
  let s := sys_init (boot page) in
  let done :=
    sys_settle stub_generate 1 (Resolved sample_elements)
      (sys_settle stub_generate 0 (Resolved sample_elements)
         (sys_settle stub_generate 1 (Resolved sample_config)
            (sys_settle stub_generate 0 (Resolved sample_config) s))) in
  calls (boot page) = [Pending AwaitingConfig] /\
  calls s = [Pending AwaitingConfig; Pending AwaitingConfig] /\
  load_config_calls (trace (world s)) = 2 /\
  calls done = [Fulfilled; Fulfilled] /\
  load_elements_calls (trace (world done)) = 2 /\
  List.length (generate_calls (trace (world done))) = 2 /\
  listeners (world done) = (installed page ++ installed page)%list.
Proof. cbv zeta. repeat split. Qed.

(** C8, amended.  Every [init()] call, whatever the state of earlier calls,
    is accepted: it logs, calls [parser.loadConfig] once more and returns a
    promise pending on that load, without touching the fields, the document
    or the listeners. *)
Theorem init_call_always_starts_a_load (s : Sys) :
  let s' := sys_init s in
  calls s' = (calls s ++ [Pending AwaitingConfig])%list /\
  load_config_calls (trace (world s')) =
    S (load_config_calls (trace (world s))) /\
  trace (world s') =
    (trace (world s) ++
     [ConsoleLog "ElementsFactory: initializing...";
      ConsoleLog "ElementsFactory: loading config and elements...";
      ParserLoadConfig])%list /\
  app (world s') = app (world s) /\
  dom (world s') = dom (world s) /\
  listeners (world s') = listeners (world s).
Proof.
  cbv zeta. unfold sys_init. rewrite init_call_eq.
  cbn [calls world trace app dom listeners].
  rewrite load_config_calls_app. cbn [load_config_calls].
  repeat split. lia.
Qed.

(** * Further properties of the event layer *)

Section Events.

Variable generate : JsValue -> JsValue -> string -> string -> string.

(** The world a [render()] leaves. *)
Lemma render_world (w : World) :
  snd (render generate w) =
  let a := app w in
  mkWorld a
    (dom_showing
       (if has_data a
        then generate (elements a) (config a) (currentTheme a)
                      (currentLayout a)
        else error_html "No data loaded")
       (dom w))
    (listeners w)
    (trace w ++
     if has_data a
     then [ConsoleLog (render_log (currentTheme a) (currentLayout a));
           RendererGenerate (elements a) (config a)
                            (currentTheme a) (currentLayout a)] ++
          match table_container (dom w) with
          | Some _ => []
          | None =>
              [ConsoleError "ElementsFactory: #table-container not found"
                            None]
          end
     else []).
Proof.
  cbv zeta. destruct (has_data (app w)) eqn:D.
  - rewrite (render_present generate w D). reflexivity.
  - rewrite (render_absent generate w D), showError_eq, app_nil_r.
    reflexivity.
Qed.

Lemma run_listener_returns (l : Listener) (ev : UiEvent) (w : World) :
  fst (run_listener generate l ev w) = Normal tt.
Proof.
  destruct l, ev; cbn [run_listener]; try reflexivity;
    try (rewrite onThemeChange_eq; apply render_returns);
    try (rewrite onSizeChange_eq; apply render_returns).
  destruct elementGroup; reflexivity.
Qed.

Lemma run_listeners_eq (ls : list Listener) (ev : UiEvent) (w : World) :
  run_listeners generate ls ev w =
  (Normal tt, fold_left (after_listener generate ev) ls w).
Proof.
  revert w. induction ls as [| l ls IH]; intros w; [reflexivity |].
  cbn [run_listeners fold_left]. unfold bind at 1, try_catch, after_listener at 2.
  pose proof (run_listener_returns l ev w) as R.
  destruct (run_listener generate l ev w) as [[u | t] w'];
    [| discriminate R].
  cbn [snd]. unfold ret. apply IH.
Qed.

Lemma dispatch_eq (ev : UiEvent) (w : World) :
  dispatch generate ev w =
  (Normal tt,
   fold_left (after_listener generate ev) (filter on_document (listeners w))
     (fold_left (after_listener generate ev)
        (filter (fun l => negb (on_document l)) (listeners w)) w)).
Proof.
  unfold dispatch, bind, get_listeners.
  rewrite run_listeners_eq, run_listeners_eq. reflexivity.
Qed.

Lemma after_listener_eq (ev : UiEvent) (u : World) (l : Listener) :
  after_listener generate ev u l =
  if listener_eqb (event_listener ev) l
  then event_handler generate ev u else u.
Proof. destruct ev, l; reflexivity. Qed.

Lemma fold_listeners (ev : UiEvent) (ls : list Listener) (w : World) :
  fold_left (after_listener generate ev) ls w =
  Nat.iter (count_listener (event_listener ev) ls)
           (event_handler generate ev) w.
Proof.
  unfold count_listener. revert w.
  induction ls as [| l ls IH]; intros w; [reflexivity |].
  cbn [fold_left filter]. rewrite IH, after_listener_eq.
  destruct (listener_eqb (event_listener ev) l); [| reflexivity].
  cbn [List.length]. rewrite Nat.iter_succ_r. reflexivity.
Qed.

Lemma count_listener_split (l : Listener) (p : Listener -> bool)
    (ls : list Listener) :
  count_listener l (filter p ls) +
  count_listener l (filter (fun x => negb (p x)) ls) =
  count_listener l ls.
Proof.
  unfold count_listener.
  induction ls as [| x ls IH]; [reflexivity |].
  cbn [filter]. destruct (p x); cbn [negb filter];
    destruct (listener_eqb l x); cbn [List.length]; lia.
Qed.

Lemma count_listener_app (l : Listener) (ls ls' : list Listener) :
  count_listener l (ls ++ ls') = count_listener l ls + count_listener l ls'.
Proof. unfold count_listener. rewrite filter_app. apply length_app. Qed.

(** An event runs the callback registered for it once per registration,
    one run after the other, and returns. *)
Lemma dispatch_iter (ev : UiEvent) (w : World) :
  dispatch generate ev w =
  (Normal tt,
   Nat.iter (count_listener (event_listener ev) (listeners w))
            (event_handler generate ev) w).
Proof.
  rewrite dispatch_eq, !fold_listeners, <- Nat.iter_add.
  rewrite count_listener_split. reflexivity.
Qed.

End Events.

Lemma dom_showing_twice (h h' : string) (d : Dom) :
  dom_showing h (dom_showing h' d) = dom_showing h d.
Proof.
  unfold dom_showing, shown.
  cbn [table_container theme_select size_select export_btn].
  destruct (table_container d); reflexivity.
Qed.

Lemma dom_showing_without_container (h : string) (d : Dom) :
  table_container d = None -> dom_showing h d = d.
Proof.
  destruct d as [c ts ss eb]. unfold dom_showing, shown.
  cbn [table_container theme_select size_select export_btn].
  intros ->. reflexivity.
Qed.

Lemma onDocumentClick_eq (g : option ElementGroup) (w : World) :
  onDocumentClick g w =
  (Normal tt,
   mkWorld (app w) (dom w) (listeners w)
     (trace w ++
      match g with
      | None => []
      | Some g =>
          [ConsoleLog
             ("ElementsFactory: clicked element #" ++ attribute (data_number g)
              ++ " " ++ attribute (data_symbol g)
              ++ " (" ++ attribute (data_name g)
              ++ "), category: " ++ attribute (data_category g))]
      end)).
Proof.
  destruct g as [g |]; unfold onDocumentClick; run_monad.
  - reflexivity.
  - rewrite app_nil_r. destruct w; reflexivity.
Qed.

Section EventEffects.

Variable generate : JsValue -> JsValue -> string -> string -> string.

(** What one run of a callback keeps. *)
Lemma event_handler_frame (ev : UiEvent) (u : World) :
  let u' := event_handler generate ev u in
  elements (app u') = elements (app u) /\
  config (app u') = config (app u) /\
  listeners u' = listeners u /\
  load_config_calls (trace u') = load_config_calls (trace u) /\
  load_elements_calls (trace u') = load_elements_calls (trace u).
Proof.
  assert (R : forall w,
    let w' := snd (render generate w) in
    elements (app w') = elements (app w) /\
    config (app w') = config (app w) /\
    listeners w' = listeners w /\
    load_config_calls (trace w') = load_config_calls (trace w) /\
    load_elements_calls (trace w') = load_elements_calls (trace w)).
  { intros w. cbv zeta. rewrite render_world. cbv zeta.
    cbn [app dom listeners trace].
    rewrite load_config_calls_app, load_elements_calls_app.
    repeat split;
      destruct (has_data (app w)), (table_container (dom w)); cbn; lia. }
  destruct ev as [value | value | | g]; cbv zeta; cbn [event_handler].
  - rewrite onThemeChange_eq.
    match goal with |- context [render generate ?w0] => exact (R w0) end.
  - rewrite onSizeChange_eq.
    match goal with |- context [render generate ?w0] => exact (R w0) end.
  - rewrite exportSVG_eq. cbn [snd app dom listeners trace].
    rewrite load_config_calls_app, load_elements_calls_app.
    repeat split; cbn; lia.
  - rewrite onDocumentClick_eq. cbn [snd app dom listeners trace].
    rewrite load_config_calls_app, load_elements_calls_app.
    repeat split; destruct g; cbn; lia.
Qed.

End EventEffects.

(** X1. Whatever the event and whatever is registered, a dispatch returns
    normally, keeps the loaded elements and config and the registered
    listeners, and makes no call to the parser. *)
Theorem dispatch_keeps_data_and_listeners
    (generate : JsValue -> JsValue -> string -> string -> string)
    (ev : UiEvent) (w : World) :
  let r := dispatch generate ev w in
  fst r = Normal tt /\
  elements (app (snd r)) = elements (app w) /\
  config (app (snd r)) = config (app w) /\
  listeners (snd r) = listeners w /\
  load_config_calls (trace (snd r)) = load_config_calls (trace w) /\
  load_elements_calls (trace (snd r)) = load_elements_calls (trace w).
Proof.
  cbv zeta. rewrite dispatch_iter. cbn [fst snd].
  split; [reflexivity |].
  apply Nat.iter_invariant; [| repeat split].
  intros u (H1 & H2 & H3 & H4 & H5).
  destruct (event_handler_frame generate ev u) as (F1 & F2 & F3 & F4 & F5).
  rewrite F1, F2, F3, F4, F5.
  repeat split; assumption.
Qed.

Section Selections.

Variable generate : JsValue -> JsValue -> string -> string -> string.

(** The [generate] calls of one [render()], whatever the page. *)
Lemma render_trace_generate_calls (w : World) :
  generate_calls
    (if has_data (app w)
     then [ConsoleLog (render_log (currentTheme (app w))
                                  (currentLayout (app w)));
           RendererGenerate (elements (app w)) (config (app w))
                            (currentTheme (app w)) (currentLayout (app w))] ++
          match table_container (dom w) with
          | Some _ => []
          | None =>
              [ConsoleError "ElementsFactory: #table-container not found"
                            None]
          end
     else []) =
  if has_data (app w)
  then [(elements (app w), config (app w),
         currentTheme (app w), currentLayout (app w))]
  else [].
Proof.
  destruct (has_data (app w)), (table_container (dom w)); reflexivity.
Qed.

Lemma theme_handler_iter (value : string) (w : World) (n : nat) :
  let a := app w in
  let a' := mkApp (elements a) (config a) value (currentLayout a) in
  let u := Nat.iter n (event_handler generate (ThemeSelected value)) w in
  app u = (if (n =? 0)%nat then a else a') /\
  dom u =
    (if (n =? 0)%nat then dom w
     else dom_showing
            (if has_data a
             then generate (elements a) (config a) value (currentLayout a)
             else error_html "No data loaded")
            (dom w)) /\
  generate_calls (trace u) =
    (generate_calls (trace w) ++
     if has_data a
     then repeat (elements a, config a, value, currentLayout a) n
     else [])%list.
Proof.
  cbv zeta. induction n as [| n (A & D & G)].
  - cbn [Nat.iter Nat.eqb repeat].
    destruct (has_data (app w)); rewrite app_nil_r; repeat split.
  - rewrite Nat.iter_succ. cbn [Nat.eqb].
    set (u := Nat.iter n (event_handler generate (ThemeSelected value)) w) in *.
    cbn [event_handler].
    rewrite onThemeChange_eq, render_world. cbv zeta.
    cbn [app dom listeners trace elements config currentTheme currentLayout].
    rewrite generate_calls_app, G.
    assert (E : elements (app u) = elements (app w) /\
                config (app u) = config (app w) /\
                currentLayout (app u) = currentLayout (app w)).
    { rewrite A. destruct (n =? 0)%nat; repeat split. }
    destruct E as (E1 & E2 & E3). rewrite E1, E2, E3.
    change (has_data (mkApp (elements (app w)) (config (app w)) value
                            (currentLayout (app w))))
      with (has_data (app w)).
    repeat split.
    + rewrite D. destruct (n =? 0)%nat; [reflexivity | apply dom_showing_twice].
    + rewrite <- app_assoc. f_equal.
      destruct (has_data (app w)); [| reflexivity].
      cbn [repeat]. rewrite repeat_cons. f_equal.
      destruct (table_container (dom u)); reflexivity.
Qed.

Lemma size_handler_iter (value : string) (w : World) (n : nat) :
  let a := app w in
  let a' := mkApp (elements a) (config a) (currentTheme a) value in
  let u := Nat.iter n (event_handler generate (SizeSelected value)) w in
  app u = (if (n =? 0)%nat then a else a') /\
  dom u =
    (if (n =? 0)%nat then dom w
     else dom_showing
            (if has_data a
             then generate (elements a) (config a) (currentTheme a) value
             else error_html "No data loaded")
            (dom w)) /\
  generate_calls (trace u) =
    (generate_calls (trace w) ++
     if has_data a
     then repeat (elements a, config a, currentTheme a, value) n
     else [])%list.
Proof.
  cbv zeta. induction n as [| n (A & D & G)].
  - cbn [Nat.iter Nat.eqb repeat].
    destruct (has_data (app w)); rewrite app_nil_r; repeat split.
  - rewrite Nat.iter_succ. cbn [Nat.eqb].
    set (u := Nat.iter n (event_handler generate (SizeSelected value)) w) in *.
    cbn [event_handler].
    rewrite onSizeChange_eq, render_world. cbv zeta.
    cbn [app dom listeners trace elements config currentTheme currentLayout].
    rewrite generate_calls_app, G.
    assert (E : elements (app u) = elements (app w) /\
                config (app u) = config (app w) /\
                currentTheme (app u) = currentTheme (app w)).
    { rewrite A. destruct (n =? 0)%nat; repeat split. }
    destruct E as (E1 & E2 & E3). rewrite E1, E2, E3.
    change (has_data (mkApp (elements (app w)) (config (app w))
                            (currentTheme (app w)) value))
      with (has_data (app w)).
    repeat split.
    + rewrite D. destruct (n =? 0)%nat; [reflexivity | apply dom_showing_twice].
    + rewrite <- app_assoc. f_equal.
      destruct (has_data (app w)); [| reflexivity].
      cbn [repeat]. rewrite repeat_cons. f_equal.
      destruct (table_container (dom u)); reflexivity.
Qed.

End Selections.

(** X2. A change of the theme selector runs the theme callback once per
    registration.  With none registered nothing changes; otherwise the value
    is stored as the theme, the layout and the data are kept, the container
    shows the table generated with that theme (or 'No data loaded' when data
    is missing), and [renderer.generate] was called once per registration,
    each time with the new theme. *)
Theorem theme_selection_renders_per_listener
    (generate : JsValue -> JsValue -> string -> string -> string)
    (value : string) (w : World) :
  let n := count_listener ThemeChangeListener (listeners w) in
  let a := app w in
  let w' := snd (dispatch generate (ThemeSelected value) w) in
  app w' =
    (if (n =? 0)%nat then a
     else mkApp (elements a) (config a) value (currentLayout a)) /\
  dom w' =
    (if (n =? 0)%nat then dom w
     else dom_showing
            (if has_data a
             then generate (elements a) (config a) value (currentLayout a)
             else error_html "No data loaded")
            (dom w)) /\
  generate_calls (trace w') =
    (generate_calls (trace w) ++
     if has_data a
     then repeat (elements a, config a, value, currentLayout a) n
     else [])%list.
Proof.
  cbv zeta. rewrite dispatch_iter. cbn [snd event_listener].
  apply theme_handler_iter.
Qed.

(** X3. A change of the size selector runs the size callback once per
    registration: with none registered nothing changes; otherwise the value
    is stored as the layout, the theme and the data are kept, the container
    shows the table generated with that layout (or 'No data loaded'), and
    [renderer.generate] was called once per registration with it. *)
Theorem size_selection_renders_per_listener
    (generate : JsValue -> JsValue -> string -> string -> string)
    (value : string) (w : World) :
  let n := count_listener SizeChangeListener (listeners w) in
  let a := app w in
  let w' := snd (dispatch generate (SizeSelected value) w) in
  app w' =
    (if (n =? 0)%nat then a
     else mkApp (elements a) (config a) (currentTheme a) value) /\
  dom w' =
    (if (n =? 0)%nat then dom w
     else dom_showing
            (if has_data a
             then generate (elements a) (config a) (currentTheme a) value
             else error_html "No data loaded")
            (dom w)) /\
  generate_calls (trace w') =
    (generate_calls (trace w) ++
     if has_data a
     then repeat (elements a, config a, currentTheme a, value) n
     else [])%list.
Proof.
  cbv zeta. rewrite dispatch_iter. cbn [snd event_listener].
  apply size_handler_iter.
Qed.

(** X4. A click on the export button calls [renderer.downloadSVG] once per
    registered export callback, each time with the name derived from the
    stored theme and layout; it changes neither the fields nor the document,
    and never calls [renderer.generate]. *)
Theorem export_click_downloads_per_listener
    (generate : JsValue -> JsValue -> string -> string -> string)
    (w : World) :
  let n := count_listener ExportClickListener (listeners w) in
  let w' := snd (dispatch generate ExportClicked w) in
  app w' = app w /\
  dom w' = dom w /\
  download_calls (trace w') =
    (download_calls (trace w) ++
     repeat (export_filename (currentTheme (app w)) (currentLayout (app w)))
            n)%list /\
  generate_calls (trace w') = generate_calls (trace w).
Proof.
  cbv zeta. rewrite dispatch_iter. cbn [snd event_listener].
  induction (count_listener ExportClickListener (listeners w))
    as [| n (A & D & L & G)].
  - cbn [Nat.iter repeat]. rewrite app_nil_r. repeat split.
  - rewrite Nat.iter_succ.
    set (u := Nat.iter n (event_handler generate ExportClicked) w) in *.
    cbn [event_handler]. rewrite exportSVG_eq.
    cbn [snd app dom trace].
    rewrite download_calls_app, generate_calls_app, L, G, A.
    repeat split; try assumption.
    + rewrite <- app_assoc. f_equal. cbn [repeat].
      rewrite repeat_cons. reflexivity.
    + apply app_nil_r.
Qed.

(** X5. A click in the document that is not inside an [.element] changes
    nothing at all.  A click inside one only logs, once per registered
    document callback, the four [data-] attributes of the element (a missing
    attribute as [null]); fields, document and listeners stay as they
    were. *)
Theorem document_click_only_logs
    (generate : JsValue -> JsValue -> string -> string -> string)
    (w : World) :
  snd (dispatch generate (DocumentClicked None) w) = w /\
  (forall g,
     let n := count_listener DocumentClickListener (listeners w) in
     let w' := snd (dispatch generate (DocumentClicked (Some g)) w) in
     app w' = app w /\
     dom w' = dom w /\
     listeners w' = listeners w /\
     trace w' =
       (trace w ++
        repeat
          (ConsoleLog
             ("ElementsFactory: clicked element #" ++
              attribute (data_number g) ++ " " ++
              attribute (data_symbol g) ++ " (" ++
              attribute (data_name g) ++ "), category: " ++
              attribute (data_category g)))
          n)%list).
Proof.
  split.
  - rewrite dispatch_iter. cbn [snd].
    apply Nat.iter_invariant; [| reflexivity].
    intros u ->. reflexivity.
  - intros g. cbv zeta. rewrite dispatch_iter. cbn [snd event_listener].
    induction (count_listener DocumentClickListener (listeners w))
      as [| n (A & D & L & T)].
    + cbn [Nat.iter repeat]. rewrite app_nil_r. repeat split.
    + rewrite Nat.iter_succ.
      set (u := Nat.iter n
                  (event_handler generate (DocumentClicked (Some g))) w) in *.
      cbn [event_handler]. rewrite onDocumentClick_eq.
      cbn [snd app dom listeners trace].
      repeat split; try assumption.
      rewrite T, <- app_assoc. f_equal. cbn [repeat].
      rewrite repeat_cons. reflexivity.
Qed.

Section Inert.

Variable generate : JsValue -> JsValue -> string -> string -> string.

Lemma dispatch_without_listeners (ev : UiEvent) (w : World) :
  listeners w = [] -> dispatch generate ev w = (Normal tt, w).
Proof.
  intros H. rewrite dispatch_iter. cbn [snd event_listener].
  rewrite H. reflexivity.
Qed.



End Inert.

(** X6. While the top-level [init()] is waiting for the config or for the
    elements, no listener is registered yet: every event of the page leaves
    the fields, the document and the trace exactly as they are. *)
Theorem events_inert_while_loading
    (generate : JsValue -> JsValue -> string -> string -> string)
    (d : Dom) (c : JsValue) (ev : UiEvent) :
  let waiting_config := boot d in
  let waiting_elements := sys_settle generate 0 (Resolved c) (boot d) in
  calls waiting_config = [Pending AwaitingConfig] /\
  sys_dispatch generate ev waiting_config = waiting_config /\
  calls waiting_elements = [Pending AwaitingElements] /\
  sys_dispatch generate ev waiting_elements = waiting_elements.
Proof.
  cbv zeta. unfold sys_dispatch.
  rewrite !dispatch_without_listeners by reflexivity.
  repeat split.
Qed.

(** X7. When the first load fails (a parser promise rejects, or the elements
    resolve to a value without readable [length]), no listener has been
    registered and at least one data field is missing: afterwards every event
    of the page is a no-op and a [render()] only shows 'No data loaded'. *)
Theorem events_inert_after_failed_load
    (generate : JsValue -> JsValue -> string -> string -> string)
    (d : Dom) (cfg els : Settled) (ev : UiEvent) :
  load_fails cfg els = true ->
  let w := snd (init_run generate cfg els (mkWorld constructor d [] [])) in
  listeners w = [] /\
  has_data (app w) = false /\
  dispatch generate ev w = (Normal tt, w) /\
  render generate w = showError (JStr "No data loaded") w.
Proof.
  intros F. cbv zeta.
  set (w := snd (init_run generate cfg els (mkWorld constructor d [] []))).
  assert (H : listeners w = [] /\ has_data (app w) = false).
  { subst w. destruct cfg as [c | e].
    - destruct els as [v | e].
      + rewrite init_run_resolved. cbv zeta. cbn [load_fails] in F.
        destruct (get_prop v "length") as [n | t] eqn:L; [discriminate F |].
        rewrite settle_init_world, init_catch_listeners, init_catch_app.
        split; [reflexivity |].
        destruct v; try discriminate L; try reflexivity;
          cbn in L; destruct (_ =? _) in L; discriminate L.
      + rewrite init_run_elements_rejected, settle_init_world,
          init_catch_listeners, init_catch_app.
        split; reflexivity.
    - rewrite init_run_config_rejected, settle_init_world,
        init_catch_listeners, init_catch_app.
      split; reflexivity. }
  destruct H as [Hl Hd].
  repeat split; try assumption.
  - apply dispatch_without_listeners. exact Hl.
  - apply render_absent. exact Hd.
Qed.

Lemma events_inert_after_failed_load_witness :
  load_fails (Resolved sample_config) (Resolved JNull) = true /\
  dispatch stub_generate (ThemeSelected "dark")
    (snd (init_run stub_generate (Resolved sample_config) (Resolved JNull)
            fresh_world)) =
  (Normal tt,
   snd (init_run stub_generate (Resolved sample_config) (Resolved JNull)
          fresh_world)).
Proof.
  split; [reflexivity |].
  destruct (events_inert_after_failed_load stub_generate page
              (Resolved sample_config) (Resolved JNull)
              (ThemeSelected "dark") eq_refl) as (_ & _ & D & _).
  exact D.
Defined.

Section Promise.

Variable generate : JsValue -> JsValue -> string -> string -> string.

(** The [catch] block throws exactly on a [null] or [undefined] error. *)
Lemma init_catch_promise (e : JsValue) (w : World) :
  fst (settle_init (init_catch e w)) =
  if nullish e then RejectedWith (read_of_nullish e "message") else Fulfilled.
Proof.
  rewrite init_catch_eq. cbv zeta.
  destruct e; cbn [nullish get_prop]; try reflexivity;
    destruct (_ =? _); reflexivity.
Qed.


End Promise.

(** X8. Once both loads have settled, the promise of [init()] is settled
    too.  Where the texts that [init()] builds convert to strings, it is
    fulfilled after a successful load and also after a failed one, the
    failure being shown and not passed on; after a parser promise rejected
    with [null] or [undefined], reading [message] in the [catch] block
    throws, and [init()] rejects with that [TypeError]. *)
Theorem init_promise_outcome
    (generate : JsValue -> JsValue -> string -> string -> string)
    (cfg els : Settled) (w : World) :
  init_texts_printable cfg els = true ->
  fst (init_run generate cfg els w) =
  match cfg, els with
  | Rejected e, _
  | Resolved _, Rejected e =>
      if nullish e then RejectedWith (read_of_nullish e "message")
      else Fulfilled
  | Resolved _, Resolved _ => Fulfilled
  end.
Proof.
  intros _. destruct cfg as [c | e].
  - destruct els as [v | e].
    + rewrite init_run_resolved. cbv zeta.
      destruct (get_prop v "length") as [n | t] eqn:L.
      * rewrite render_then_log. reflexivity.
      * rewrite init_catch_promise.
        destruct (length_of_nullish v t L) as [-> _]. reflexivity.
    + rewrite init_run_elements_rejected. apply init_catch_promise.
  - rewrite init_run_config_rejected. apply init_catch_promise.
Qed.

Lemma init_promise_outcome_witness :
  init_texts_printable (Rejected JNull) (Resolved sample_elements) = true /\
  fst (init_run stub_generate (Rejected JNull) (Resolved sample_elements)
         fresh_world) =
  RejectedWith
    (JError "TypeError"
            "Cannot read properties of null (reading 'message')").
Proof.
  split; [reflexivity |].
  exact (init_promise_outcome stub_generate (Rejected JNull)
           (Resolved sample_elements) fresh_world eq_refl).
Defined.

(** X9. What a failed load shows.  A rejection with an [Error] shows its
    message, and 'Initialization failed' when the message is empty; a
    rejection with a bare string shows 'Initialization failed', not the
    string.  This holds for the config load and for the elements load. *)
Theorem init_failure_message
    (generate : JsValue -> JsValue -> string -> string -> string)
    (w : World) :
  let shows (r : InitPromise * World) (text : string) :=
    fst r = Fulfilled /\
    table_container (dom (snd r)) = shown (error_html text) (dom w) in
  (forall name msg els,
     shows (init_run generate (Rejected (JError name msg)) els w)
           (if msg =? "" then "Initialization failed" else msg)) /\
  (forall s els,
     shows (init_run generate (Rejected (JStr s)) els w)
           "Initialization failed") /\
  (forall c name msg,
     shows (init_run generate (Resolved c) (Rejected (JError name msg)) w)
           (if msg =? "" then "Initialization failed" else msg)) /\
  (forall c s,
     shows (init_run generate (Resolved c) (Rejected (JStr s)) w)
           "Initialization failed").
Proof.
  cbv zeta. repeat split; intros;
    rewrite ?init_run_config_rejected, ?init_run_elements_rejected,
      init_catch_eq;
    cbv zeta; cbn [get_prop String.eqb Ascii.eqb Bool.eqb];
    try reflexivity;
    unfold js_or; cbn [truthy]; destruct (msg =? ""); reflexivity.
Qed.

(** X11. A second [render()] in a row changes nothing on the page: fields,
    document and listeners are as the first one left them. *)
Theorem render_twice_same_page
    (generate : JsValue -> JsValue -> string -> string -> string)
    (w : World) :
  let w1 := snd (render generate w) in
  let w2 := snd (render generate w1) in
  app w2 = app w1 /\ dom w2 = dom w1 /\ listeners w2 = listeners w1.
Proof.
  cbv zeta. rewrite !render_world. cbv zeta.
  cbn [app dom listeners trace]. repeat split.
  apply dom_showing_twice.
Qed.

(** X12. On a page without [#table-container] nothing is ever displayed and
    nothing throws: [showError] does nothing at all, so the error is lost;
    a [render()] with data still calls [renderer.generate] and then logs
    that the container was not found; and neither an event nor an [init()]
    changes the document. *)
Theorem without_container
    (generate : JsValue -> JsValue -> string -> string -> string)
    (w : World) :
  table_container (dom w) = None ->
  (forall message, showError message w = (Normal tt, w)) /\
  fst (render generate w) = Normal tt /\
  dom (snd (render generate w)) = dom w /\
  trace (snd (render generate w)) =
    (trace w ++
     if has_data (app w)
     then [ConsoleLog (render_log (currentTheme (app w))
                                  (currentLayout (app w)));
           RendererGenerate (elements (app w)) (config (app w))
                            (currentTheme (app w)) (currentLayout (app w));
           ConsoleError "ElementsFactory: #table-container not found" None]
     else [])%list /\
  (forall ev, dom (snd (dispatch generate ev w)) = dom w) /\
  (forall cfg els, dom (snd (init_run generate cfg els w)) = dom w).
Proof.
  intros H.
  assert (S : forall h, dom_showing h (dom w) = dom w)
    by (intros h; apply dom_showing_without_container; exact H).
  assert (R : forall u, dom u = dom w ->
                        dom (snd (render generate u)) = dom w).
  { intros u Hu. rewrite render_world. cbv zeta. cbn [dom].
    rewrite Hu. apply S. }
  assert (C : forall e u, dom u = dom w -> dom (snd (init_catch e u)) = dom w).
  { intros e u Hu. rewrite init_catch_eq. cbv zeta.
    destruct (get_prop e "message"); cbn [snd dom]; rewrite Hu;
      [apply S | reflexivity]. }
  split; [| split; [| split; [| split; [| split]]]].
  - intros message. rewrite showError_eq, S. destruct w; reflexivity.
  - apply render_returns.
  - apply R. reflexivity.
  - rewrite render_world. cbv zeta. cbn [trace]. rewrite H. reflexivity.
  - intros ev. rewrite dispatch_iter. cbn [snd].
    apply Nat.iter_invariant; [| reflexivity].
    intros u Hu. destruct ev as [value | value | | g]; cbn [event_handler].
    + rewrite onThemeChange_eq. apply R. exact Hu.
    + rewrite onSizeChange_eq. apply R. exact Hu.
    + rewrite exportSVG_eq. exact Hu.
    + rewrite onDocumentClick_eq. exact Hu.
  - intros cfg els. destruct cfg as [c | e].
    + destruct els as [v | e].
      * rewrite init_run_resolved. cbv zeta.
        destruct (get_prop v "length"); rewrite settle_init_world.
        -- rewrite render_then_log. cbv zeta. cbn [snd dom].
           apply R. reflexivity.
        -- apply C. reflexivity.
      * rewrite init_run_elements_rejected, settle_init_world.
        apply C. reflexivity.
    + rewrite init_run_config_rejected, settle_init_world.
      apply C. reflexivity.
Qed.

Lemma without_container_witness :
  table_container
    (dom (mkWorld (app ready_world) (mkDom None true true true) [] [])) =
    None /\
  generate_calls
    (trace (snd (render stub_generate
                   (mkWorld (app ready_world) (mkDom None true true true)
                            [] [])))) =
  [(sample_elements, sample_config, "light", "normal")].
Proof.
  split; [reflexivity |].
  destruct (without_container stub_generate
              (mkWorld (app ready_world) (mkDom None true true true) [] [])
              eq_refl) as (_ & _ & _ & T & _).
  rewrite T. reflexivity.
Defined.

(** X13. Whatever [document.readyState] is when the script runs, once the
    document is ready exactly one [init()] has been called, on a freshly
    constructed application: it is pending on the one [parser.loadConfig]
    call made so far.  While the document is still loading, nothing has been
    called yet. *)
Theorem top_level_inits_once (rs : ReadyState) (d : Dom) :
  let ready :=
    match rs with
    | Loading => dom_content_loaded (top_level rs d)
    | Interactive | Complete => top_level rs d
    end in
  script_sys ready = boot d /\
  calls (script_sys ready) = [Pending AwaitingConfig] /\
  load_config_calls (trace (world (script_sys ready))) = 1 /\
  app (world (script_sys ready)) = constructor /\
  trace (world (script_sys (top_level Loading d))) = [] /\
  calls (script_sys (top_level Loading d)) = [].
Proof. destruct rs; cbv zeta; repeat split. Qed.

Section LoadedPage.

Variable generate : JsValue -> JsValue -> string -> string -> string.


Lemma count_installed (d : Dom) :
  count_listener ThemeChangeListener (installed d) =
    (if theme_select d then 1 else 0) /\
  count_listener SizeChangeListener (installed d) =
    (if size_select d then 1 else 0) /\
  count_listener ExportClickListener (installed d) =
    (if export_btn d then 1 else 0) /\
  count_listener DocumentClickListener (installed d) = 1.
Proof.
  unfold installed.
  destruct (theme_select d), (size_select d), (export_btn d);
    repeat split.
Qed.





End LoadedPage.



Section RepeatedLoads.

Variable generate : JsValue -> JsValue -> string -> string -> string.


End RepeatedLoads.



(** X15. [setupEventListeners()] copes with missing controls: it returns
    normally, registers one callback for each of the three controls that
    exists and always the document's click callback, after those already
    registered, and changes neither the fields, the document nor the
    trace. *)
Theorem setupEventListeners_skips_missing_controls (w : World) :
  let r := setupEventListeners w in
  let added (l : Listener) :=
    match l with
    | ThemeChangeListener => if theme_select (dom w) then 1 else 0
    | SizeChangeListener => if size_select (dom w) then 1 else 0
    | ExportClickListener => if export_btn (dom w) then 1 else 0
    | DocumentClickListener => 1
    end in
  fst r = Normal tt /\
  (exists new, listeners (snd r) = (listeners w ++ new)%list /\
               forall l, count_listener l new = added l) /\
  (forall l, count_listener l (listeners (snd r)) =
             count_listener l (listeners w) + added l) /\
  app (snd r) = app w /\
  dom (snd r) = dom w /\
  trace (snd r) = trace w.
Proof.
  cbv zeta. rewrite setupEventListeners_eq. cbn [fst snd app dom listeners
    trace].
  destruct (count_installed (dom w)) as (C1 & C2 & C3 & C4).
  repeat split.
  - exists (installed (dom w)). split; [reflexivity |].
    intros []; assumption.
  - intros l. rewrite count_listener_app. f_equal.
    destruct l; assumption.
Qed.

